(** * Presentation generator: the content-to-slide pipeline of [ML_Group.py]

    A shallow embedding of [parse_ai_response], [enhance_content_with_ai] and
    [generate_presentation], with the Python built-ins they call.

    Text is [String.string]; a character is read as a code point below 256.
    Python values that come out of [json.loads] are the type [json]; a slide
    is a record with the keys the source gives its dictionaries.  A raised
    exception is the [Raise] case of [result]. *)

From Stdlib Require Import Bool Ascii String List ZArith Lia PrimFloat.
From Stdlib Require Import DecimalString.
Import ListNotations.

Local Open Scope string_scope.
Local Open Scope list_scope.
Local Open Scope Z_scope.

(** String concatenation, as an f-string or [+] on [str] does it. *)
Infix "+:+" := String.append (at level 60, right associativity).

(* ================================================================== *)
(** ** Python [str] methods *)

Module Text.

(** [str.isspace] on one character, for code points below 256: TAB..CR,
    FS..US, SPACE, NEL and NBSP. *)
Definition is_space (c : ascii) : bool :=
  let n := nat_of_ascii c in
  ((9 <=? n) && (n <=? 13) || (28 <=? n) && (n <=? 32)
   || (n =? 133) || (n =? 160))%nat.

(** Membership of a character in the [chars] argument of [lstrip]. *)
Fixpoint char_in (c : ascii) (chars : string) : bool :=
  match chars with
  | EmptyString => false
  | String d rest => Ascii.eqb c d || char_in c rest
  end.

(** Drop the leading characters that satisfy [p]. *)
Fixpoint lstrip_by (p : ascii -> bool) (s : string) : string :=
  match s with
  | EmptyString => EmptyString
  | String c rest => if p c then lstrip_by p rest else s
  end.

(** Drop the trailing characters that satisfy [p]. *)
Fixpoint rstrip_by (p : ascii -> bool) (s : string) : string :=
  match s with
  | EmptyString => EmptyString
  | String c rest =>
      match rstrip_by p rest with
      | EmptyString => if p c then EmptyString else String c EmptyString
      | kept => String c kept
      end
  end.

(** [s.strip()] *)
Definition strip (s : string) : string :=
  rstrip_by is_space (lstrip_by is_space s).

(** [s.lstrip(chars)] *)
Definition lstrip (chars s : string) : string :=
  lstrip_by (fun c => char_in c chars) s.

(** [s.startswith(p)] *)
Definition startswith (p s : string) : bool := String.prefix p s.

(** Truth value of a [str]: non-empty. *)
Definition nonempty (s : string) : bool :=
  match s with EmptyString => false | String _ _ => true end.

(** [s.split(sep)] for a one-character separator: never the empty list. *)
Fixpoint split (sep : ascii) (s : string) : list string :=
  match s with
  | EmptyString => [EmptyString]
  | String c rest =>
      if Ascii.eqb c sep then EmptyString :: split sep rest
      else match split sep rest with
           | [] => [String c EmptyString]
           | w :: ws => String c w :: ws
           end
  end.

(** [s.split()]: the maximal runs of non-whitespace characters. *)
Fixpoint split_ws (s : string) : list string :=
  match s with
  | EmptyString => []
  | String c rest =>
      if is_space c then split_ws rest
      else match rest with
           | EmptyString => [String c EmptyString]
           | String c' _ =>
               if is_space c' then String c EmptyString :: split_ws rest
               else match split_ws rest with
                    | [] => [String c EmptyString]
                    | w :: ws => String c w :: ws
                    end
           end
  end.

(** [sep.join(l)] *)
Definition join (sep : string) (l : list string) : string :=
  String.concat sep l.

(** [sub in s] on two [str]. *)
Definition contains (sub s : string) : bool :=
  match String.index 0 sub s with Some _ => true | None => false end.

(** The characters of a [str], as iterating over it yields them. *)
Fixpoint chars (s : string) : list string :=
  match s with
  | EmptyString => []
  | String c rest => String c EmptyString :: chars rest
  end.

End Text.

(** [str.title] and [str.capitalize] depend on Unicode's case tables, which
    are not modelled: the development is parametric in them. *)
Class PyStr := {
  str_title : string -> string;
  str_capitalize : string -> string
}.

(* ================================================================== *)
(** ** Exceptions *)

Inductive exn : Type :=
| TypeError | AttributeError | KeyError | IndexError
| ZeroDivisionError | ValueError | RuntimeError.

Inductive result (A : Type) : Type :=
| Ok (a : A)
| Raise (e : exn).
Arguments Ok {A} a.
Arguments Raise {A} e.

Definition bind {A B} (m : result A) (k : A -> result B) : result B :=
  match m with
  | Ok a => k a
  | Raise e => Raise e
  end.

Notation "x <- m ;; k" := (bind m (fun x => k))
  (at level 61, m at next level, right associativity).

(** [try: body  except Exception: handler] *)
Definition try_except {A} (body : result A) (handler : exn -> result A)
  : result A :=
  match body with
  | Ok a => Ok a
  | Raise e => handler e
  end.

(** A [for] loop that builds one value per element and stops at the first
    exception. *)
Fixpoint for_each {A B} (f : A -> result B) (l : list A) : result (list B) :=
  match l with
  | [] => Ok []
  | x :: rest => y <- f x ;; ys <- for_each f rest ;; Ok (y :: ys)
  end.

(* ================================================================== *)
(** ** Python values decoded from JSON *)

#[local] Set Warnings "-register-all".

Inductive json : Type :=
| JNull
| JBool (b : bool)
| JInt (z : Z)
| JFloat (f : float)
| JStr (s : string)
| JList (l : list json)
| JObj (d : list (string * json)).

Module Py.

(** A [dict] with [str] keys keeps insertion order; keys are unique. *)
Definition dict := list (string * json).

Fixpoint lookup (k : string) (d : dict) : option json :=
  match d with
  | [] => None
  | (k', v) :: rest => if String.eqb k k' then Some v else lookup k rest
  end.

Fixpoint store (k : string) (v : json) (d : dict) : dict :=
  match d with
  | [] => [(k, v)]
  | (k', v') :: rest =>
      if String.eqb k k' then (k', v) :: rest else (k', v') :: store k v rest
  end.

(** [bool(v)] *)
Definition truthy (v : json) : bool :=
  match v with
  | JNull => false
  | JBool b => b
  | JInt z => negb (z =? 0)
  | JFloat f => negb (PrimFloat.eqb f PrimFloat.zero)
  | JStr s => Text.nonempty s
  | JList l => match l with [] => false | _ => true end
  | JObj d => match d with [] => false | _ => true end
  end.

Definition is_str (k : string) (v : json) : bool :=
  match v with JStr s => String.eqb k s | _ => false end.

(** [k in v] for a [str] key [k]. *)
Definition contains (k : string) (v : json) : result bool :=
  match v with
  | JObj d => Ok (match lookup k d with Some _ => true | None => false end)
  | JList l => Ok (existsb (is_str k) l)
  | JStr s => Ok (Text.contains k s)
  | _ => Raise TypeError
  end.

(** [v[k]] for a [str] key [k]. *)
Definition getitem (v : json) (k : string) : result json :=
  match v with
  | JObj d => match lookup k d with Some x => Ok x | None => Raise KeyError end
  | _ => Raise TypeError
  end.

(** [v.get(k, default)]: only a [dict] has the method. *)
Definition get (v : json) (k : string) (default : json) : result json :=
  match v with
  | JObj d => Ok (match lookup k d with Some x => x | None => default end)
  | _ => Raise AttributeError
  end.

(** [isinstance(v, list)] *)
Definition is_list (v : json) : bool :=
  match v with JList _ => true | _ => false end.

(** The elements [list.extend(v)] appends. *)
Definition iterate (v : json) : result (list json) :=
  match v with
  | JList l => Ok l
  | JStr s => Ok (map JStr (Text.chars s))
  | JObj d => Ok (map (fun kv => JStr (fst kv)) d)
  | _ => Raise TypeError
  end.

(** [l[i]] with Python's negative indices. *)
Definition index {A} (l : list A) (i : Z) : result A :=
  let n := Z.of_nat (List.length l) in
  let j := if i <? 0 then i + n else i in
  if (j <? 0) || (n <=? j) then Raise IndexError
  else match nth_error l (Z.to_nat j) with
       | Some x => Ok x
       | None => Raise IndexError
       end.

(** [l[lo:hi]] with Python's clamping of both bounds. *)
Definition slice {A} (l : list A) (lo hi : Z) : list A :=
  let n := Z.of_nat (List.length l) in
  let clamp i := if i <? 0 then Z.max 0 (i + n) else Z.min i n in
  let a := clamp lo in
  let b := clamp hi in
  firstn (Z.to_nat (b - a)) (skipn (Z.to_nat a) l).

(** [range(start, stop, step)] for a positive [step]. *)
Definition range (start stop step : Z) : list Z :=
  map (fun k => start + Z.of_nat k * step)
      (seq 0 (Z.to_nat ((stop - start + step - 1) / step))).

(** [a // b] *)
Definition floordiv (a b : Z) : result Z :=
  if b =? 0 then Raise ZeroDivisionError else Ok (a / b).

End Py.

(* ================================================================== *)
(** ** Slides and collaborators *)

(** A slide dictionary: the keys ['title'], ['content'] and ['notes'] are
    always there, ['subtitle'] only on the slide that is built first.  A title,
    a note or a content line taken from AI content is whatever the decoder
    returned, so these fields hold [json] values. *)
Record Slide : Type := {
  title : json;
  subtitle : option string;
  content : list json;
  notes : json
}.

Definition rgb : Type := Z * Z * Z.

(** What the pipeline calls and this development does not look into:
    the hosted model ([generate_content_with_gemini] returns the response
    text, or [None] after catching a failure of the call), [json.loads],
    the HTML preview, the colour conversion, the [python-pptx] renderer, and
    [str] of an exception. *)
Class Collaborators := {
  generate_content_with_gemini : string -> string -> string -> option string;
  json_loads : string -> result json;
  create_preview_html : list Slide -> result string;
  hex_to_rgb : string -> result rgb;
  create_presentation : list Slide -> string -> rgb -> result string;
  str_exn : exn -> string
}.

(* ================================================================== *)
(** ** [parse_ai_response] *)

(** The longest prefix of [s] that ends with a closing brace. *)
Fixpoint upto_last_close (s : string) : option string :=
  match s with
  | EmptyString => None
  | String c rest =>
      match upto_last_close rest with
      | Some body => Some (String c body)
      | None => if Ascii.eqb c "}" then Some (String c EmptyString) else None
      end
  end.

(** [re.search(r'({[\s\S]*})', text)], group 1: the leftmost start position
    where the pattern matches, the star taking as much as it can. *)
Fixpoint re_search_braces (text : string) : option string :=
  match text with
  | EmptyString => None
  | String c rest =>
      if Ascii.eqb c "{" then
        match upto_last_close rest with
        | Some body => Some (String c body)
        | None => re_search_braces rest
        end
      else re_search_braces rest
  end.

Definition parse_ai_response `{Collaborators} (response_text : string)
  : result json :=
  try_except
    (match re_search_braces response_text with
     | Some json_str => data <- json_loads json_str ;; Ok data
     | None => Ok JNull
     end)
    (fun _ => Ok JNull).

(* ================================================================== *)
(** ** [enhance_content_with_ai] *)

Section Enhance.
Context `{PyStr}.

(** The list comprehension over the lines of the text area. *)
Fixpoint bullets_of_lines (lines : list string) : list string :=
  match lines with
  | [] => []
  | pt :: rest =>
      if Text.nonempty (Text.strip pt) && Text.startswith "-" (Text.strip pt)
      then Text.lstrip "- " (Text.strip pt) :: bullets_of_lines rest
      else bullets_of_lines rest
  end.

Definition extract_points (bullet_points : string) : list string :=
  bullets_of_lines (Text.split "010" bullet_points).

(** [" ".join(words[:min(3, len(words))]).title()] *)
Definition title_words (text : string) : string :=
  let words := Text.split_ws text in
  str_title
    (Text.join " "
       (Py.slice words 0 (Z.min 3 (Z.of_nat (List.length words))))).

Definition title_slide (ai_content : json) (points : list string)
    (audience purpose : string) : result Slide :=
  has_title <- (if Py.truthy ai_content then Py.contains "title" ai_content
                else Ok false) ;;
  t <- (if has_title then Py.getitem ai_content "title"
        else
          let main_words :=
            match points with
            | p :: _ => Text.join " " (Py.slice (Text.split_ws p) 0 3)
            | [] => "UCL Presentation"
            end in
          Ok (JStr ("UCL " +:+ str_title main_words))) ;;
  Ok {| title := t;
        subtitle := Some ("For " +:+ str_title audience +:+ ": "
                          +:+ str_capitalize purpose);
        content := [];
        notes := JStr ("Welcome. This presentation is designed for "
                       +:+ audience +:+ " to " +:+ purpose +:+ ".") |}.

(** The test that selects the AI branch. *)
Definition has_points_list (ai_content : json) : result bool :=
  if Py.truthy ai_content then
    present <- Py.contains "points" ai_content ;;
    if present then
      pts <- Py.getitem ai_content "points" ;; Ok (Py.is_list pts)
    else Ok false
  else Ok false.

(** One pass of the loop over [ai_content['points']]. *)
Definition point_slide (audience : string) (point_data : json)
  : result Slide :=
  main_point <- Py.get point_data "main_point" (JStr "") ;;
  slide_title <- (if Py.truthy main_point then
                    match main_point with
                    | JStr s => w <- Py.index (Text.split "." s) 0 ;; Ok (JStr w)
                    | _ => Raise AttributeError
                    end
                  else Ok (JStr "Key Point")) ;;
  has_sub <- Py.contains "sub_points" point_data ;;
  extra <- (if has_sub then
              sub <- Py.getitem point_data "sub_points" ;;
              if Py.truthy sub then Py.iterate sub else Ok []
            else Ok []) ;;
  n <- Py.get point_data "speaker_notes"
         (JStr ("Discuss how this relates to " +:+ audience +:+ ".")) ;;
  Ok {| title := slide_title; subtitle := None;
        content := main_point :: extra; notes := n |}.

Definition generic_closing (audience : string) : list json :=
  [JStr "Summary of key points";
   JStr ("Application for " +:+ audience);
   JStr "Contact for further information"].

Definition next_steps (lines : list json) : Slide :=
  {| title := JStr "Next Steps"; subtitle := None; content := lines;
     notes := JStr "Summarize the presentation and open for questions." |}.

(** The closing slide of the AI branch. *)
Definition ai_closing (ai_content : json) (audience : string)
  : result Slide :=
  present <- Py.contains "conclusion" ai_content ;;
  if present then
    c <- Py.getitem ai_content "conclusion" ;;
    match c with
    | JList lines => Ok (next_steps lines)
    | _ => Ok (next_steps (generic_closing audience))
    end
  else Ok (next_steps (generic_closing audience)).

Definition ai_slides (ai_content : json) (audience : string)
  : result (list Slide) :=
  pts <- Py.getitem ai_content "points" ;;
  items <- Py.iterate pts ;;
  body <- for_each (point_slide audience) items ;;
  closing <- ai_closing ai_content audience ;;
  Ok (body ++ [closing]).

(** One slide per bullet. *)
Definition focus_slide (audience point : string) : Slide :=
  {| title := JStr ("Focus on " +:+ title_words point);
     subtitle := None;
     content := [JStr point];
     notes := JStr ("Key point: " +:+ point +:+ ". Explain how this benefits "
                    +:+ audience +:+ ".") |}.

(** [str(n)] for a length. *)
Definition str_of_len (n : nat) : string :=
  NilZero.string_of_uint (Nat.to_uint n).

(** One slide per group of bullets. *)
Definition group_slide (group : list string) : result Slide :=
  first <- Py.index group 0 ;;
  Ok {| title := JStr (title_words first);
        subtitle := None;
        content := map JStr group;
        notes := JStr ("Discuss these " +:+ str_of_len (List.length group)
                       +:+ " related points and their impact.") |}.

(** The branch taken when AI is disabled or its content is not usable. *)
Definition fallback_slides (points : list string) (audience : string)
    (slide_count : Z) : result (list Slide) :=
  let n := Z.of_nat (List.length points) in
  body <- (if n <=? slide_count - 2 then
             Ok (map (focus_slide audience) points)
           else
             q <- Py.floordiv n (slide_count - 2) ;;
             let points_per_slide := Z.max 1 q in
             for_each
               (fun i => group_slide (Py.slice points i (i + points_per_slide)))
               (Py.range 0 n points_per_slide)) ;;
  Ok (body ++ [next_steps (generic_closing audience)]).

(** The slides as they stand before the length is limited. *)
Definition assemble_slides (ai_content : json) (points : list string)
    (audience purpose : string) (slide_count : Z) : result (list Slide) :=
  first <- title_slide ai_content points audience purpose ;;
  use_ai <- has_points_list ai_content ;;
  rest <- (if use_ai then ai_slides ai_content audience
           else fallback_slides points audience slide_count) ;;
  Ok (first :: rest).

(** [if len(slides) > slide_count: slides = [slides[0]] +
    slides[1:slide_count-1] + [slides[-1]]] *)
Definition limit_slides (slides : list Slide) (slide_count : Z)
  : result (list Slide) :=
  if slide_count <? Z.of_nat (List.length slides) then
    first <- Py.index slides 0 ;;
    last <- Py.index slides (-1) ;;
    Ok ([first] ++ Py.slice slides 1 (slide_count - 1) ++ [last])
  else Ok slides.

Context `{Collaborators}.

(** The value of [ai_content] when assembly starts. *)
Definition fetch_ai_content (bullet_points audience purpose : string)
    (ai_enabled : bool) : result json :=
  if ai_enabled then
    match generate_content_with_gemini bullet_points audience purpose with
    | Some ai_response =>
        if Text.nonempty ai_response then parse_ai_response ai_response
        else Ok JNull
    | None => Ok JNull
    end
  else Ok JNull.

Definition enhance_content_with_ai (bullet_points audience purpose : string)
    (slide_count : Z) (ai_enabled : bool) : result (list Slide) :=
  let points := extract_points bullet_points in
  match points with
  | [] => Ok []
  | _ :: _ =>
      ai_content <- fetch_ai_content bullet_points audience purpose ai_enabled ;;
      slides <- assemble_slides ai_content points audience purpose slide_count ;;
      limit_slides slides slide_count
  end.

(* ================================================================== *)
(** ** [generate_presentation] *)

(** What one run returns, and the calls it made to the renderer. *)
Record outcome : Type := {
  shown : string;
  file_path : option string;
  render_calls : list (list Slide * string * rgb)
}.

Definition generate_presentation
    (bullet_points audience purpose template : string) (slide_count : Z)
    (use_ai : bool) (font_color_hex : string) : outcome :=
  let failed e calls :=
    {| shown := "Error generating presentation: " +:+ str_exn e;
       file_path := None; render_calls := calls |} in
  match enhance_content_with_ai bullet_points audience purpose slide_count
          use_ai with
  | Raise e => failed e []
  | Ok [] =>
      {| shown := "Error: Could not process bullet points. "
                  +:+ "Make sure they start with '-'.";
         file_path := None; render_calls := [] |}
  | Ok slides =>
      match create_preview_html slides with
      | Raise e => failed e []
      | Ok preview =>
          match hex_to_rgb font_color_hex with
          | Raise e => failed e []
          | Ok font_color_rgb =>
              let call := (slides, template, font_color_rgb) in
              match create_presentation slides template font_color_rgb with
              | Raise e => failed e [call]
              | Ok path =>
                  {| shown := preview; file_path := Some path;
                     render_calls := [call] |}
              end
          end
      end
  end.

End Enhance.

(* ================================================================== *)
(** ** Concrete collaborators for the examples *)

(** A decoder for the JSON texts of the examples: objects, arrays, strings
    with the one-character escapes, integers, [true], [false] and [null].
    It raises where [json.loads] raises [JSONDecodeError] (a [ValueError]).
    Texts with a fraction, an exponent, [NaN], [Infinity] or a [\u] escape
    are outside what it decodes (it raises on them too); no example below
    has one. *)
Module Json.

Definition is_ws (c : ascii) : bool :=
  Ascii.eqb c " " || Ascii.eqb c "009" || Ascii.eqb c "010"
  || Ascii.eqb c "013".

Fixpoint skip_ws (s : string) : string :=
  match s with
  | EmptyString => EmptyString
  | String c rest => if is_ws c then skip_ws rest else s
  end.

Definition digit (c : ascii) : option Z :=
  let n := nat_of_ascii c in
  if ((48 <=? n) && (n <=? 57))%nat then Some (Z.of_nat n - 48) else None.

(** The digits at the head of [s], read onto [acc]. *)
Fixpoint digits (acc : Z) (s : string) : Z * string :=
  match s with
  | EmptyString => (acc, s)
  | String c rest =>
      match digit c with
      | Some d => digits (10 * acc + d) rest
      | None => (acc, s)
      end
  end.

(** [0] or a digit run that does not start with [0]; no fraction or exponent
    may follow. *)
Definition natural (s : string) : option (Z * string) :=
  match s with
  | EmptyString => None
  | String c rest =>
      match digit c with
      | None => None
      | Some d =>
          let '(n, after) := if d =? 0 then (0, rest) else digits d rest in
          match after with
          | String c' _ =>
              if Ascii.eqb c' "." || Ascii.eqb c' "e" || Ascii.eqb c' "E"
              then None else Some (n, after)
          | EmptyString => Some (n, after)
          end
      end
  end.

Definition unescape (c : ascii) : option ascii :=
  if Ascii.eqb c "034" then Some "034"%char
  else if Ascii.eqb c "\" then Some "\"%char
  else if Ascii.eqb c "/" then Some "/"%char
  else if Ascii.eqb c "b" then Some "008"%char
  else if Ascii.eqb c "f" then Some "012"%char
  else if Ascii.eqb c "n" then Some "010"%char
  else if Ascii.eqb c "r" then Some "013"%char
  else if Ascii.eqb c "t" then Some "009"%char
  else None.

(** The characters of a string literal after its opening quote, and the text
    after its closing quote. *)
Fixpoint str_chars (s : string) : option (string * string) :=
  match s with
  | EmptyString => None
  | String c rest =>
      if Ascii.eqb c "034" then Some (EmptyString, rest)
      else if Ascii.eqb c "\" then
        match rest with
        | EmptyString => None
        | String e rest' =>
            match unescape e, str_chars rest' with
            | Some ch, Some (body, after) => Some (String ch body, after)
            | _, _ => None
            end
        end
      else if (nat_of_ascii c <? 32)%nat then None
      else match str_chars rest with
           | Some (body, after) => Some (String c body, after)
           | None => None
           end
  end.

(** [drop_prefix p s]: the text after [p] when [s] starts with it. *)
Fixpoint drop_prefix (p s : string) : option string :=
  match p, s with
  | EmptyString, _ => Some s
  | String a p', String b s' => if Ascii.eqb a b then drop_prefix p' s' else None
  | String _ _, EmptyString => None
  end.

Definition literal (s : string) : option (json * string) :=
  match drop_prefix "null" s, drop_prefix "true" s, drop_prefix "false" s with
  | Some r, _, _ => Some (JNull, r)
  | _, Some r, _ => Some (JBool true, r)
  | _, _, Some r => Some (JBool false, r)
  | _, _, _ => None
  end.

Definition number (s : string) : option (json * string) :=
  match s with
  | String "-" rest =>
      match natural rest with
      | Some (n, r) => Some (JInt (- n), r)
      | None => None
      end
  | _ =>
      match natural s with
      | Some (n, r) => Some (JInt n, r)
      | None => None
      end
  end.

(** One value at the head of [s], after optional white space.  Every call
    takes one unit of [fuel]. *)
Fixpoint value (fuel : nat) (s : string) {struct fuel}
  : option (json * string) :=
  match fuel with
  | O => None
  | S fuel' =>
      match skip_ws s with
      | EmptyString => None
      | String c rest =>
          if Ascii.eqb c "{" then
            match skip_ws rest with
            | String "}" r => Some (JObj [], r)
            | _ => members fuel' rest []
            end
          else if Ascii.eqb c "[" then
            match skip_ws rest with
            | String "]" r => Some (JList [], r)
            | _ => elements fuel' rest []
            end
          else if Ascii.eqb c "034" then
            match str_chars rest with
            | Some (x, r) => Some (JStr x, r)
            | None => None
            end
          else
            match literal (String c rest) with
            | Some found => Some found
            | None => number (String c rest)
            end
      end
  end
with elements (fuel : nat) (s : string) (acc : list json) {struct fuel}
  : option (json * string) :=
  match fuel with
  | O => None
  | S fuel' =>
      match value fuel' s with
      | None => None
      | Some (v, r) =>
          match skip_ws r with
          | String "," r' => elements fuel' r' (acc ++ [v])
          | String "]" r' => Some (JList (acc ++ [v]), r')
          | _ => None
          end
      end
  end
with members (fuel : nat) (s : string) (acc : Py.dict) {struct fuel}
  : option (json * string) :=
  match fuel with
  | O => None
  | S fuel' =>
      match skip_ws s with
      | String "034" r =>
          match str_chars r with
          | None => None
          | Some (k, r1) =>
              match skip_ws r1 with
              | String ":" r2 =>
                  match value fuel' r2 with
                  | None => None
                  | Some (v, r3) =>
                      match skip_ws r3 with
                      | String "," r4 => members fuel' r4 (Py.store k v acc)
                      | String "}" r4 => Some (JObj (Py.store k v acc), r4)
                      | _ => None
                      end
                  end
              | _ => None
              end
          end
      | _ => None
      end
  end.

(** [json.loads]: one value, then nothing but white space.  Two units of fuel
    per character are enough, since every second call consumes one. *)
Definition loads (s : string) : result json :=
  match value (2 * String.length s + 2) s with
  | Some (v, r) =>
      match skip_ws r with
      | EmptyString => Ok v
      | String _ _ => Raise ValueError
      end
  | None => Raise ValueError
  end.

End Json.

(** [str.title] and [str.capitalize] on ASCII text. *)
Module AsciiCase.

Definition is_lower (c : ascii) : bool :=
  let n := nat_of_ascii c in ((97 <=? n) && (n <=? 122))%nat.
Definition is_upper (c : ascii) : bool :=
  let n := nat_of_ascii c in ((65 <=? n) && (n <=? 90))%nat.
Definition upper (c : ascii) : ascii :=
  if is_lower c then ascii_of_nat (nat_of_ascii c - 32) else c.
Definition lower (c : ascii) : ascii :=
  if is_upper c then ascii_of_nat (nat_of_ascii c + 32) else c.

(** [in_word]: the previous character was a letter. *)
Fixpoint title_from (in_word : bool) (s : string) : string :=
  match s with
  | EmptyString => EmptyString
  | String c rest =>
      if is_lower c || is_upper c then
        String (if in_word then lower c else upper c) (title_from true rest)
      else String c (title_from false rest)
  end.

Fixpoint lower_all (s : string) : string :=
  match s with
  | EmptyString => EmptyString
  | String c rest => String (lower c) (lower_all rest)
  end.

Definition title (s : string) : string := title_from false s.

Definition capitalize (s : string) : string :=
  match s with
  | EmptyString => EmptyString
  | String c rest => String (upper c) (lower_all rest)
  end.

End AsciiCase.

Module Example.

#[export] Instance ascii_str : PyStr :=
  {| str_title := AsciiCase.title; str_capitalize := AsciiCase.capitalize |}.

(** A run in which the model answers every request with [response] (or the
    call fails, for [None]); the preview, the colour and the renderer are
    stand-ins that always succeed. *)
Definition collaborators (response : option string) : Collaborators :=
  {| generate_content_with_gemini := fun _ _ _ => response;
     json_loads := Json.loads;
     create_preview_html := fun _ => Ok "<div></div>";
     hex_to_rgb := fun _ => Ok (0, 0, 0);
     create_presentation := fun _ _ _ => Ok "/tmp/UCL_Presentation.pptx";
     str_exn := fun _ => "error" |}.

(** A double quote, for JSON texts, and a line feed. *)
Definition q : string := String "034" EmptyString.
Definition nl : string := String "010" EmptyString.

(** The text area of the application's own example. *)
Definition geneva : string :=
  nl +:+ "- Places to visit in Geneva" +:+ nl +:+ "- How much it will cost"
  +:+ nl.

(** Five bullets, for a deck of five slides. *)
Definition five_bullets : string :=
  "- lake" +:+ nl +:+ "- old town" +:+ nl +:+ "- museums" +:+ nl
  +:+ "- fondue" +:+ nl +:+ "- trains".

(** [{"points": [{"main_point": "Visit the lake."}]}] *)
Definition one_point : string :=
  "{" +:+ q +:+ "points" +:+ q +:+ ": [{" +:+ q +:+ "main_point" +:+ q
  +:+ ": " +:+ q +:+ "Visit the lake." +:+ q +:+ "}]}".

(** [{"points": [{"main_point": "Visit the lake."}], "conclusion": []}] *)
Definition one_point_no_takeaway : string :=
  "{" +:+ q +:+ "points" +:+ q +:+ ": [{" +:+ q +:+ "main_point" +:+ q
  +:+ ": " +:+ q +:+ "Visit the lake." +:+ q +:+ "}], " +:+ q
  +:+ "conclusion" +:+ q +:+ ": []}".

(** [{"points": [], "conclusion": []}] *)
Definition nothing_to_say : string :=
  "{" +:+ q +:+ "points" +:+ q +:+ ": [], " +:+ q +:+ "conclusion" +:+ q
  +:+ ": []}".

(** The model's answer in the spec's scenario, prose included. *)
Definition geneva_trip : string :=
  "Here you go: {" +:+ q +:+ "title" +:+ q +:+ ":" +:+ q +:+ "Geneva Trip"
  +:+ q +:+ "," +:+ q +:+ "points" +:+ q +:+ ":[{" +:+ q +:+ "main_point"
  +:+ q +:+ ":" +:+ q +:+ "Visit the lake." +:+ q +:+ "," +:+ q
  +:+ "sub_points" +:+ q +:+ ":[" +:+ q +:+ "nice views" +:+ q +:+ "],"
  +:+ q +:+ "speaker_notes" +:+ q +:+ ":" +:+ q +:+ "talk about lake" +:+ q
  +:+ "}]," +:+ q +:+ "conclusion" +:+ q +:+ ":[" +:+ q +:+ "Book now" +:+ q
  +:+ "]}".

End Example.

(* ================================================================== *)
(** ** [hex_to_rgb], the palette and the templates *)

Module Colour.

(** The white space [int] skips around a number (code points below 256). *)
Definition int_space (c : ascii) : bool :=
  let n := nat_of_ascii c in
  ((9 <=? n) && (n <=? 13) || (n =? 32) || (n =? 133) || (n =? 160))%nat.

Definition hex_digit (c : ascii) : option Z :=
  let n := Z.of_nat (nat_of_ascii c) in
  if (48 <=? n) && (n <=? 57) then Some (n - 48)
  else if (97 <=? n) && (n <=? 102) then Some (n - 87)
  else if (65 <=? n) && (n <=? 70) then Some (n - 55)
  else None.

(** The digits of a number in base 16, single underscores allowed between
    them: the value read onto [acc] and the text that follows.  [None] for
    no digit at all, a doubled underscore or one at the end. *)
Fixpoint digits (prev_underscore seen : bool) (acc : Z) (s : string)
  : option (Z * string) :=
  match s with
  | EmptyString => if prev_underscore || negb seen then None else Some (acc, s)
  | String c rest =>
      match hex_digit c with
      | Some d => digits false true (16 * acc + d) rest
      | None =>
          if Ascii.eqb c "_" then
            if prev_underscore then None else digits true seen acc rest
          else if prev_underscore || negb seen then None else Some (acc, s)
      end
  end.

(** The text after an optional [0x] or [0X] and the one underscore that may
    follow it. *)
Definition after_prefix (s : string) : string :=
  match s with
  | String "0" (String x rest) =>
      if Ascii.eqb x "x" || Ascii.eqb x "X" then
        match rest with
        | String "_" rest' => rest'
        | _ => rest
        end
      else s
  | _ => s
  end.

(** [int(s, 16)] *)
Definition int16 (s : string) : result Z :=
  let s1 := Text.lstrip_by int_space s in
  let '(negative, s2) :=
    match s1 with
    | String "+" r => (false, r)
    | String "-" r => (true, r)
    | _ => (false, s1)
    end in
  let s3 := after_prefix s2 in
  match s3 with
  | String "_" _ => Raise ValueError
  | _ =>
      match digits false false 0 s3 with
      | Some (n, tail) =>
          match Text.lstrip_by int_space tail with
          | EmptyString => Ok (if negative then - n else n)
          | String _ _ => Raise ValueError
          end
      | None => Raise ValueError
      end
  end.

(** [s[i:i+2]] for a position [i] that is not negative. *)
Definition pair_at (i : nat) (s : string) : string := String.substring i 2 s.

Definition hex_to_rgb (hex_color : string) : result rgb :=
  let hex_color := Text.lstrip "#" hex_color in
  r <- int16 (pair_at 0 hex_color) ;;
  g <- int16 (pair_at 2 hex_color) ;;
  b <- int16 (pair_at 4 hex_color) ;;
  Ok (r, g, b).

(** The lower-case digit for a value below 16. *)
Definition hex_char (d : Z) : ascii :=
  match String.get (Z.to_nat d) "0123456789abcdef" with
  | Some c => c
  | None => "0"%char
  end.

(** The base-16 digits of [n], in front of [acc]. *)
Fixpoint hex_onto (fuel : nat) (n : Z) (acc : string) : string :=
  match fuel with
  | O => acc
  | S fuel' =>
      let acc' := String (hex_char (n mod 16)) acc in
      if n <? 16 then acc' else hex_onto fuel' (n / 16) acc'
  end.

Definition hex (n : Z) : string :=
  hex_onto (S (Z.to_nat (Z.log2 n))) n EmptyString.

(** [format(n, '02x')]: sign, then the digits filled with zeros up to a
    width of two, the sign counted. *)
Definition format_02x (n : Z) : string :=
  if n <? 0 then "-" +:+ hex (- n)
  else if n <? 16 then "0" +:+ hex n
  else hex n.

(** The f-string of the palette display:
    [f"#{rgb[0]:02x}{rgb[1]:02x}{rgb[2]:02x}"]. *)
Definition palette_hex (c : rgb) : string :=
  let '(r, g, b) := c in
  "#" +:+ format_02x r +:+ format_02x g +:+ format_02x b.

Definition PURPLE : rgb := (80, 7, 120).
Definition GREEN : rgb := (82, 193, 82).
Definition BLUE : rgb := (52, 198, 198).
Definition YELLOW : rgb := (255, 202, 54).
Definition PINK : rgb := (172, 20, 90).
Definition DARK_BLUE : rgb := (0, 34, 72).
Definition BLACK : rgb := (0, 0, 0).
Definition WHITE : rgb := (255, 255, 255).

Definition UCL_COLORS : list (string * rgb) :=
  [("PURPLE", PURPLE); ("GREEN", GREEN); ("BLUE", BLUE); ("YELLOW", YELLOW);
   ("PINK", PINK); ("DARK_BLUE", DARK_BLUE); ("BLACK", BLACK);
   ("WHITE", WHITE)].

Record Template : Type := {
  title_bg : rgb;
  title_text : rgb;
  content_bg : rgb;
  accent : rgb
}.

Definition ucl_blue : Template :=
  {| title_bg := DARK_BLUE; title_text := WHITE; content_bg := WHITE;
     accent := DARK_BLUE |}.

Definition TEMPLATES : list (string * Template) :=
  [("ucl-blue", ucl_blue);
   ("ucl-purple",
    {| title_bg := PURPLE; title_text := WHITE; content_bg := WHITE;
       accent := PURPLE |});
   ("ucl-green",
    {| title_bg := GREEN; title_text := BLACK; content_bg := WHITE;
       accent := GREEN |});
   ("ucl-blue-vibrant",
    {| title_bg := BLUE; title_text := BLACK; content_bg := WHITE;
       accent := BLUE |});
   ("ucl-pink",
    {| title_bg := PINK; title_text := WHITE; content_bg := WHITE;
       accent := PINK |})].

Fixpoint find_template (name : string) (l : list (string * Template))
  : option Template :=
  match l with
  | [] => None
  | (k, t) :: rest => if String.eqb name k then Some t else find_template name rest
  end.

(** [TEMPLATES.get(template_name, TEMPLATES['ucl-blue'])], the first line of
    [create_presentation]. *)
Definition template_for (template_name : string) : Template :=
  match find_template template_name TEMPLATES with
  | Some t => t
  | None => ucl_blue
  end.

(** The colour [create_presentation] gives the bar at the top of slide
    number [i], counted from zero. *)
Definition top_bar (t : Template) (i : nat) : rgb :=
  match i with
  | O => title_bg t
  | S _ => accent t
  end.

End Colour.

(** The collaborators of [run], with the colour conversion of the source in
    the place of the one [run] brings. *)
Definition with_hex_to_rgb (run : Collaborators) : Collaborators :=
  {| generate_content_with_gemini := @generate_content_with_gemini run;
     json_loads := @json_loads run;
     create_preview_html := @create_preview_html run;
     hex_to_rgb := Colour.hex_to_rgb;
     create_presentation := @create_presentation run;
     str_exn := @str_exn run |}.

(** Model answers for the examples of the further properties. *)
Module Answers.

(** [{"points": ["just text"]}]: a point that is not an object. *)
Definition bare_point : string :=
  "{" +:+ Example.q +:+ "points" +:+ Example.q +:+ ": [" +:+ Example.q
  +:+ "just text" +:+ Example.q +:+ "]}".

End Answers.

(* ================================================================== *)
(** * Properties *)

(** ** Predicates used in the statements *)

(** Every character of [s] satisfies [p]. *)
Fixpoint all_chars (p : ascii -> bool) (s : string) : bool :=
  match s with
  | EmptyString => true
  | String c rest => p c && all_chars p rest
  end.

(** The first character of [s], if any, does not satisfy [p]. *)
Definition head_avoids (p : ascii -> bool) (s : string) : Prop :=
  match s with
  | EmptyString => True
  | String c _ => p c = false
  end.

(** The last character of [s], if any, does not satisfy [p]. *)
Fixpoint last_avoids (p : ascii -> bool) (s : string) : Prop :=
  match s with
  | EmptyString => True
  | String c EmptyString => p c = false
  | String _ rest => last_avoids p rest
  end.

(** [t] is [line] without the white space at its two ends. *)
Definition trimmed (line t : string) : Prop :=
  exists lead trail,
    line = lead +:+ t +:+ trail /\
    all_chars Text.is_space lead = true /\
    all_chars Text.is_space trail = true /\
    head_avoids Text.is_space t /\
    last_avoids Text.is_space t.

Definition dash_or_space (c : ascii) : bool := Text.char_in c "- ".

(** The spec's wording of the marker removal: the dash, then one space if
    there is one. *)
Definition strip_marker_once (t : string) : string :=
  match t with
  | String "-" (String " " rest) => rest
  | String "-" rest => rest
  | _ => t
  end.

(** How a bullet comes from a qualifying line: the trimmed line is a run of
    dashes and spaces that starts with the dash, followed by the bullet, and
    the bullet does not go on with a dash or a space. *)
Definition bullet_of_line (line bullet : string) : Prop :=
  exists run,
    trimmed line (Text.strip line) /\
    Text.strip line = run +:+ bullet /\
    Text.startswith "-" run = true /\
    all_chars dash_or_space run = true /\
    head_avoids dash_or_space bullet /\
    (bullet = EmptyString <->
     all_chars dash_or_space (Text.strip line) = true).

(** A slide that is neither the first nor the last. *)
Definition content_slide (s : Slide) : Prop :=
  subtitle s = None /\ content s <> [].

(** The AI content was used and its conclusion is the empty list. *)
Definition empty_conclusion_used (ai_content : json) : Prop :=
  has_points_list ai_content = Ok true /\
  Py.getitem ai_content "conclusion" = Ok (JList []).

(** The group of [k] elements of [l] that starts at position [j * k]. *)
Definition chunk {A} (l : list A) (k j : nat) : list A :=
  firstn k (skipn (j * k) l).

(** The slide [group_slide] returns for a group that has a first bullet. *)
Definition group_slide_of `{PyStr} (group : list string) : Slide :=
  {| title := JStr (title_words (hd EmptyString group));
     subtitle := None;
     content := map JStr group;
     notes := JStr ("Discuss these " +:+ str_of_len (List.length group)
                    +:+ " related points and their impact.") |}.

(** How a slide shows a group: the group is its content, and its title is
    the title-cased first three words, or fewer, of the first bullet. *)
Definition is_group_slide `{PyStr} (group : list string) (s : Slide) : Prop :=
  exists b rest,
    group = b :: rest /\
    title s = JStr (str_title (Text.join " " (firstn 3 (Text.split_ws b)))) /\
    subtitle s = None /\
    content s = map JStr group.

(** Every character, by code point. *)
Definition all_ascii : list ascii := map ascii_of_nat (seq 0 256).

(** A bullet as the text area is meant to hold it after its marker: one
    line, no dash or space at its start, no white space at its end. *)
Definition clean_bullet (b : string) : Prop :=
  Text.char_in "010" b = false /\
  head_avoids dash_or_space b /\
  last_avoids Text.is_space b.

(** A value is a [str]. *)
Definition is_text (v : json) : Prop := exists s, v = JStr s.

(** A slide whose title, content lines and notes are all [str]. *)
Definition text_slide (s : Slide) : Prop :=
  is_text (title s) /\ Forall is_text (content s) /\ is_text (notes s).

(** What [point_slide] needs of the value under ['main_point']: absent, a
    [str], or anything that counts as false. *)
Definition usable_main_point (m : option json) : Prop :=
  match m with
  | None => True
  | Some (JStr _) => True
  | Some v => Py.truthy v = false
  end.

(** What [point_slide] needs of the value under ['sub_points']: absent,
    something [extend] can iterate over, or anything that counts as false. *)
Definition usable_sub_points (m : option json) : Prop :=
  match m with
  | None => True
  | Some (JList _) | Some (JStr _) | Some (JObj _) => True
  | Some v => Py.truthy v = false
  end.

Definition well_formed_point (v : json) : Prop :=
  match v with
  | JObj d =>
      usable_main_point (Py.lookup "main_point" d) /\
      usable_sub_points (Py.lookup "sub_points" d)
  | _ => False
  end.

(** The model gave nothing to use: the call failed, the answer is empty, it
    has no brace span, or the decoder rejects the span. *)
Definition ai_unavailable `{Collaborators}
    (bullet_points audience purpose : string) : Prop :=
  match generate_content_with_gemini bullet_points audience purpose with
  | None => True
  | Some ai_response =>
      ai_response = EmptyString \/
      re_search_braces ai_response = None \/
      exists span e, re_search_braces ai_response = Some span /\
                     json_loads span = Raise e
  end.

(* ------------------------------------------------------------------ *)
(** ** Strings *)

#[local] Arguments Ascii.eqb : simpl never.
#[local] Arguments Text.is_space : simpl never.

Lemma append_nil_r (s : string) : s +:+ EmptyString = s.
Proof. induction s as [|c s IH]; simpl; [reflexivity | now rewrite IH]. Qed.

Lemma append_assoc (a b c : string) : (a +:+ b) +:+ c = a +:+ b +:+ c.
Proof. induction a as [|x a IH]; simpl; [reflexivity | now rewrite IH]. Qed.

Lemma all_chars_app p (a b : string) :
  all_chars p (a +:+ b) = all_chars p a && all_chars p b.
Proof.
  induction a as [|c a IH]; simpl; [reflexivity|].
  now rewrite IH, andb_assoc.
Qed.

Lemma lstrip_by_split p (s : string) :
  exists run, s = run +:+ Text.lstrip_by p s /\
              all_chars p run = true /\
              head_avoids p (Text.lstrip_by p s).
Proof.
  induction s as [|c s IH]; simpl.
  - exists EmptyString. repeat split.
  - destruct (p c) eqn:Hc.
    + destruct IH as (run & Hs & Hrun & Hhead).
      exists (String c run). simpl. rewrite Hc, Hrun.
      repeat split; [now rewrite <- Hs | assumption].
    + exists EmptyString. simpl. repeat split. assumption.
Qed.

Lemma lstrip_by_empty_iff p (s : string) :
  Text.lstrip_by p s = EmptyString <-> all_chars p s = true.
Proof.
  induction s as [|c s IH]; simpl; [tauto|].
  destruct (p c); simpl; [assumption | split; discriminate].
Qed.

Lemma rstrip_by_split p (s : string) :
  exists run, s = Text.rstrip_by p s +:+ run /\
              all_chars p run = true /\
              last_avoids p (Text.rstrip_by p s).
Proof.
  induction s as [|c s (run & Hs & Hrun & Hlast)]; cbn [Text.rstrip_by].
  - exists EmptyString. repeat split.
  - destruct (Text.rstrip_by p s) as [|d kept] eqn:Hkept.
    + destruct (p c) eqn:Hc.
      * exists (String c run). cbn [String.append all_chars].
        rewrite Hc, Hrun. repeat split. now rewrite Hs.
      * exists run. cbn [String.append last_avoids].
        repeat split; [now rewrite Hs | assumption | assumption].
    + exists run. cbn [String.append]. repeat split;
        [now rewrite Hs | assumption | exact Hlast].
Qed.

Lemma head_avoids_prefix p (a b : string) :
  head_avoids p (a +:+ b) -> head_avoids p a.
Proof. destruct a; simpl; auto. Qed.

(** [strip] removes the white space at both ends and nothing else. *)
Lemma strip_trimmed (line : string) : trimmed line (Text.strip line).
Proof.
  unfold Text.strip.
  destruct (lstrip_by_split Text.is_space line) as (lead & Hline & Hlead & Hhead).
  destruct (rstrip_by_split Text.is_space (Text.lstrip_by Text.is_space line))
    as (trail & Hrest & Htrail & Hlast).
  exists lead, trail. repeat split; try assumption.
  - now rewrite <- Hrest.
  - rewrite Hrest in Hhead. now apply head_avoids_prefix in Hhead.
Qed.

Lemma split_nonempty sep (s : string) : Text.split sep s <> [].
Proof.
  destruct s as [|c s]; cbn [Text.split]; [discriminate|].
  destruct (Ascii.eqb c sep); [discriminate|].
  destruct (Text.split sep s); discriminate.
Qed.

(** [split] cuts at every separator and nowhere else: joining the pieces
    with the separator gives the text back, and no piece has a separator. *)
Lemma split_join sep (s : string) :
  Text.join (String sep EmptyString) (Text.split sep s) = s.
Proof.
  unfold Text.join. induction s as [|c s IH]; [reflexivity|].
  cbn [Text.split]. pose proof (split_nonempty sep s) as Hne.
  destruct (Ascii.eqb c sep) eqn:Hc.
  - apply Ascii.eqb_eq in Hc as ->.
    destruct (Text.split sep s) as [|w ws]; [contradiction|].
    cbn [String.concat String.append] in *. now rewrite IH.
  - destruct (Text.split sep s) as [|w ws]; [contradiction|].
    destruct ws as [|w' ws]; cbn [String.concat String.append] in *;
      now rewrite IH.
Qed.

Lemma split_pieces sep (s : string) :
  Forall (fun w => Text.char_in sep w = false) (Text.split sep s).
Proof.
  induction s as [|c s IH]; cbn [Text.split].
  - repeat constructor.
  - destruct (Ascii.eqb c sep) eqn:Hc.
    + constructor; [reflexivity | exact IH].
    + destruct (Text.split sep s) as [|w ws]; [repeat constructor|].
      * cbn [Text.char_in]. now rewrite Ascii.eqb_sym, Hc.
      * inversion IH as [|? ? Hw Hws]; subst. constructor; [|exact Hws].
        cbn [Text.char_in]. now rewrite Ascii.eqb_sym, Hc.
Qed.

(** Every word [split_ws] returns is non-empty and free of white space. *)
Lemma split_ws_words (s : string) :
  Forall (fun w => w <> EmptyString /\
                   all_chars (fun c => negb (Text.is_space c)) w = true)
         (Text.split_ws s).
Proof.
  induction s as [|c s IH]; cbn [Text.split_ws]; [constructor|].
  destruct (Text.is_space c) eqn:Hc; [exact IH|].
  assert (Hone : String c EmptyString <> EmptyString /\
                 all_chars (fun c => negb (Text.is_space c))
                           (String c EmptyString) = true).
  { split; [discriminate|]. cbn [all_chars]. now rewrite Hc. }
  destruct s as [|c' s']; [repeat constructor; apply Hone|].
  destruct (Text.is_space c') eqn:Hc'; [constructor; [apply Hone | exact IH]|].
  destruct (Text.split_ws (String c' s')) as [|w ws];
    [repeat constructor; apply Hone|].
  inversion IH as [|? ? [Hw Hall] Hws]; subst.
  constructor; [|exact Hws]. split; [discriminate|].
  cbn [all_chars]. now rewrite Hc, Hall.
Qed.

(* ------------------------------------------------------------------ *)
(** ** The brace span *)

Lemma upto_last_close_none (s : string) :
  Text.char_in "}" s = false -> upto_last_close s = None.
Proof.
  induction s as [|c s IH]; simpl; [reflexivity|].
  rewrite Ascii.eqb_sym. intros Hc. apply orb_false_iff in Hc as [Hc Hs].
  now rewrite (IH Hs), Hc.
Qed.

Lemma upto_last_close_app (mid post : string) :
  Text.char_in "}" post = false ->
  upto_last_close (mid +:+ String "}" post) = Some (mid +:+ "}").
Proof.
  intros Hpost. induction mid as [|c mid IH]; simpl.
  - now rewrite (upto_last_close_none post Hpost).
  - now rewrite IH.
Qed.

(** The match runs from the first opening brace to the last closing one. *)
Lemma re_search_braces_span (pre mid post : string) :
  Text.char_in "{" pre = false ->
  Text.char_in "}" post = false ->
  re_search_braces (pre +:+ String "{" (mid +:+ String "}" post))
  = Some (String "{" (mid +:+ "}")).
Proof.
  intros Hpre Hpost. induction pre as [|c pre IH]; simpl.
  - now rewrite (upto_last_close_app mid post Hpost).
  - simpl in Hpre. rewrite Ascii.eqb_sym in Hpre.
    apply orb_false_iff in Hpre as [Hc Hpre]. rewrite Hc. now apply IH.
Qed.

Lemma upto_last_close_some (s body : string) :
  upto_last_close s = Some body ->
  exists mid post, body = mid +:+ "}" /\ s = body +:+ post /\
                   Text.char_in "}" post = false.
Proof.
  revert body. induction s as [|c s IH]; simpl; [discriminate|].
  intros body. destruct (upto_last_close s) as [b|] eqn:Hs.
  - intros [= <-]. destruct (IH b eq_refl) as (mid & post & -> & Hs' & Hp).
    exists (String c mid), post. simpl. now rewrite <- Hs'.
  - destruct (Ascii.eqb c "}") eqn:Hc; [|discriminate].
    intros [= <-]. apply Ascii.eqb_eq in Hc as ->.
    exists EmptyString, s. simpl. repeat split.
    clear IH. induction s as [|d s IH]; simpl in *; [reflexivity|].
    destruct (upto_last_close s); [discriminate|].
    destruct (Ascii.eqb d "}") eqn:Hd; [discriminate|].
    rewrite Ascii.eqb_sym, Hd. simpl. now apply IH.
Qed.

(** Whatever is matched starts at an opening brace that nothing precedes but
    text without one, and ends at the last closing brace. *)
Lemma re_search_braces_some (text span : string) :
  re_search_braces text = Some span ->
  exists pre mid post,
    text = pre +:+ span +:+ post /\ span = String "{" (mid +:+ "}") /\
    Text.char_in "}" post = false.
Proof.
  revert span. induction text as [|c text IH]; simpl; [discriminate|].
  intros span Hspan.
  assert (Hlater : re_search_braces text = Some span ->
                   exists pre mid post,
                     String c text = pre +:+ span +:+ post /\
                     span = String "{" (mid +:+ "}") /\
                     Text.char_in "}" post = false).
  { intros Ht. destruct (IH span Ht) as (pre & mid & post & -> & Hs & Hp).
    now exists (String c pre), mid, post. }
  destruct (Ascii.eqb c "{") eqn:Hc; [|now apply Hlater].
  destruct (upto_last_close text) as [body|] eqn:Hbody; [|now apply Hlater].
  injection Hspan as <-. apply Ascii.eqb_eq in Hc as ->.
  destruct (upto_last_close_some text body Hbody) as (mid & post & -> & Ht & Hp).
  exists EmptyString, mid, post. simpl. now rewrite <- Ht.
Qed.

Lemma upto_last_close_hit (a b : string) :
  upto_last_close (a +:+ String "}" b) <> None.
Proof.
  induction a as [|c a IH]; cbn [String.append upto_last_close].
  - destruct (upto_last_close b); [discriminate|].
    now rewrite Ascii.eqb_refl.
  - destruct (upto_last_close (a +:+ String "}" b)); [discriminate|].
    contradiction.
Qed.

Lemma re_search_braces_hit (pre mid post : string) :
  re_search_braces (pre +:+ String "{" (mid +:+ String "}" post)) <> None.
Proof.
  induction pre as [|c pre IH]; cbn [String.append re_search_braces].
  - rewrite Ascii.eqb_refl.
    pose proof (upto_last_close_hit mid post) as Hhit.
    destruct (upto_last_close (mid +:+ String "}" post));
      [discriminate | contradiction].
  - destruct (Ascii.eqb c "{"); [|exact IH].
    destruct (upto_last_close _); [discriminate | exact IH].
Qed.

(** Nothing is matched exactly when no opening brace has a closing brace
    somewhere after it. *)
Lemma re_search_braces_none_iff (text : string) :
  re_search_braces text = None <->
  (forall pre mid post,
      text <> pre +:+ String "{" (mid +:+ String "}" post)).
Proof.
  split.
  - intros Hnone pre mid post ->. now apply (re_search_braces_hit pre mid post).
  - intros Hno. destruct (re_search_braces text) as [span|] eqn:Hspan;
      [|reflexivity].
    destruct (re_search_braces_some text span Hspan)
      as (pre & mid & post & Htext & -> & _).
    exfalso. apply (Hno pre mid post). rewrite Htext.
    cbn [String.append]. now rewrite append_assoc.
Qed.

Section Extractor.
Context `{Collaborators}.

Lemma parse_ai_response_span (text span : string) :
  re_search_braces text = Some span ->
  parse_ai_response text
  = match json_loads span with Ok data => Ok data | Raise _ => Ok JNull end.
Proof.
  intros Hspan. unfold parse_ai_response. rewrite Hspan.
  now destruct (json_loads span).
Qed.

(** C6, as amended: when the text before the serialized object has no opening
    brace and the text after it no closing brace, the match is the serialized
    object itself, and the extractor returns what the decoder makes of it. *)
Theorem C6_object_recovered (pre mid post : string) (obj : json) :
  Text.char_in "{" pre = false ->
  Text.char_in "}" post = false ->
  json_loads (String "{" (mid +:+ "}")) = Ok obj ->
  re_search_braces (pre +:+ String "{" (mid +:+ "}") +:+ post)
  = Some (String "{" (mid +:+ "}")) /\
  parse_ai_response (pre +:+ String "{" (mid +:+ "}") +:+ post) = Ok obj.
Proof.
  intros Hpre Hpost Hobj.
  assert (Hspan : re_search_braces (pre +:+ String "{" (mid +:+ "}") +:+ post)
                  = Some (String "{" (mid +:+ "}"))).
  { simpl. rewrite append_assoc. simpl.
    now apply re_search_braces_span. }
  split; [exact Hspan|].
  now rewrite (parse_ai_response_span _ _ Hspan), Hobj.
Qed.

(** C7: a text with no brace span (no opening brace with a closing brace
    after it), or one whose span the decoder rejects, gives the null result;
    and on no text at all does the extractor raise. *)
Theorem C7_null_without_raising (text : string) :
  ((forall pre mid post,
       text <> pre +:+ String "{" (mid +:+ String "}" post)) ->
   parse_ai_response text = Ok JNull) /\
  (forall span e, re_search_braces text = Some span ->
                  json_loads span = Raise e ->
                  parse_ai_response text = Ok JNull) /\
  (exists data, parse_ai_response text = Ok data).
Proof.
  repeat split.
  - intros Hnone. apply re_search_braces_none_iff in Hnone.
    unfold parse_ai_response. now rewrite Hnone.
  - intros span e Hspan Hdec.
    now rewrite (parse_ai_response_span _ _ Hspan), Hdec.
  - unfold parse_ai_response.
    destruct (re_search_braces text) as [span|]; simpl.
    + destruct (json_loads span) as [data|e]; simpl; eauto.
    + eauto.
Qed.

End Extractor.

(* ------------------------------------------------------------------ *)
(** ** The bullet parser *)

Lemma startswith_dash (t : string) :
  Text.startswith "-" t = true <-> exists rest, t = String "-" rest.
Proof.
  unfold Text.startswith. destruct t as [|c t].
  - split; [discriminate | intros [rest Hr]; discriminate].
  - cbn [String.prefix]. destruct (ascii_dec "-" c) as [<-|Hc].
    + split; [eauto|]. intros _. now destruct t.
    + split; [discriminate|]. intros [rest [= Hr]]. now subst.
Qed.

Lemma qualifies_iff (t : string) :
  Text.nonempty t && Text.startswith "-" t = Text.startswith "-" t.
Proof. destruct t; reflexivity. Qed.

Lemma lstrip_dash_run (t : string) :
  Text.startswith "-" t = true ->
  exists run,
    t = run +:+ Text.lstrip "- " t /\
    Text.startswith "-" run = true /\
    all_chars dash_or_space run = true /\
    head_avoids dash_or_space (Text.lstrip "- " t).
Proof.
  intros Ht. unfold Text.lstrip.
  destruct (lstrip_by_split dash_or_space t) as (run & Hsplit & Hrun & Hhead).
  exists run. repeat split; try assumption.
  apply startswith_dash in Ht as [rest ->].
  destruct run as [|c run].
  - cbn [String.append] in Hsplit. rewrite <- Hsplit in Hhead.
    discriminate Hhead.
  - cbn [String.append] in Hsplit. injection Hsplit as <- _.
    apply startswith_dash. eauto.
Qed.

Lemma bullets_of_lines_spec (lines : list string) :
  Forall2 bullet_of_line
    (filter (fun line => Text.startswith "-" (Text.strip line)) lines)
    (bullets_of_lines lines).
Proof.
  induction lines as [|pt lines IH]; simpl; [constructor|].
  rewrite qualifies_iff.
  destruct (Text.startswith "-" (Text.strip pt)) eqn:Hq; [|exact IH].
  constructor; [|exact IH].
  destruct (lstrip_dash_run _ Hq) as (run & Hsplit & Hdash & Hrun & Hhead).
  exists run. split; [apply strip_trimmed|]. repeat split; try assumption.
  - intros Hb. apply (lstrip_by_empty_iff dash_or_space). exact Hb.
  - intros Hall. apply (lstrip_by_empty_iff dash_or_space). exact Hall.
Qed.

(** C3, as amended: the bullets are, in order, one per line whose trimmed
    form starts with the dash; each is that trimmed line without its whole
    leading run of dashes and spaces, and it is empty exactly when the
    trimmed line has nothing but dashes and spaces. *)
Theorem C3_bullets_of_text (text : string) :
  let qualifying :=
    filter (fun line => Text.startswith "-" (Text.strip line))
           (Text.split "010" text) in
  List.length (extract_points text) = List.length qualifying /\
  Forall2 bullet_of_line qualifying (extract_points text).
Proof.
  intros qualifying.
  assert (Hall : Forall2 bullet_of_line qualifying (extract_points text))
    by apply bullets_of_lines_spec.
  split; [|exact Hall].
  symmetry. exact (Forall2_length Hall).
Qed.

Lemma bullets_of_lines_none (lines : list string) :
  Forall (fun line => Text.startswith "-" (Text.strip line) = false) lines ->
  bullets_of_lines lines = [].
Proof.
  induction 1 as [|pt lines Hpt _ IH]; simpl; [reflexivity|].
  now rewrite qualifies_iff, Hpt.
Qed.

(* ------------------------------------------------------------------ *)
(** ** Slices and indices *)

Lemma slice_from_zero {A} (l : list A) (k : Z) :
  0 <= k -> Py.slice l 0 k = firstn (Z.to_nat k) l.
Proof.
  intros Hk. unfold Py.slice. cbn zeta.
  replace (0 <? 0) with false by reflexivity.
  replace (k <? 0) with false by (symmetry; apply Z.ltb_ge; lia).
  rewrite (Z.min_l 0) by lia. simpl skipn.
  rewrite Z.sub_0_r.
  destruct (Z.min_spec k (Z.of_nat (List.length l))) as [[Hlt ->]|[Hge ->]].
  - reflexivity.
  - rewrite Nat2Z.id. rewrite !firstn_all2; [reflexivity| lia |lia].
Qed.

Lemma slice_nat {A} (l : list A) (a k : nat) :
  (a <= List.length l)%nat ->
  Py.slice l (Z.of_nat a) (Z.of_nat a + Z.of_nat k) = firstn k (skipn a l).
Proof.
  intros Ha. unfold Py.slice. cbn zeta.
  replace (Z.of_nat a <? 0) with false by (symmetry; apply Z.ltb_ge; lia).
  replace (Z.of_nat a + Z.of_nat k <? 0) with false
    by (symmetry; apply Z.ltb_ge; lia).
  rewrite (Z.min_l (Z.of_nat a)) by lia. rewrite Nat2Z.id.
  destruct (Z.min_spec (Z.of_nat a + Z.of_nat k) (Z.of_nat (List.length l)))
    as [[Hlt ->]|[Hge ->]].
  - f_equal. lia.
  - rewrite (firstn_all2 (n := k)) by (rewrite length_skipn; lia).
    apply firstn_all2. rewrite length_skipn. lia.
Qed.

Lemma index_zero {A} (x : A) (l : list A) : Py.index (x :: l) 0 = Ok x.
Proof.
  unfold Py.index. cbn zeta. replace (0 <? 0) with false by reflexivity.
  replace (Z.of_nat (List.length (x :: l)) <=? 0) with false
    by (symmetry; apply Z.leb_gt; simpl List.length; lia).
  reflexivity.
Qed.

Lemma index_zero_inv {A} (l : list A) (x : A) :
  Py.index l 0 = Ok x -> exists rest, l = x :: rest.
Proof.
  destruct l as [|y l]; [discriminate|].
  rewrite index_zero. intros [= ->]. eauto.
Qed.

Lemma last_cons {A} (l : list A) (y x : A) :
  List.last (y :: l) x = List.last l y.
Proof.
  revert y x. induction l as [|z l IH]; intros y x; [reflexivity|].
  change (List.last (y :: z :: l) x) with (List.last (z :: l) x).
  now rewrite (IH z x), (IH z y).
Qed.

Lemma nth_error_last {A} (l : list A) (x : A) :
  nth_error (x :: l) (List.length l) = Some (List.last l x).
Proof.
  revert x. induction l as [|y l IH]; intros x; [reflexivity|].
  simpl List.length. change (nth_error (x :: y :: l) (S (List.length l)))
    with (nth_error (y :: l) (List.length l)).
  now rewrite IH, last_cons.
Qed.

Lemma index_minus_one {A} (x : A) (l : list A) :
  Py.index (x :: l) (-1) = Ok (List.last l x).
Proof.
  unfold Py.index. cbn zeta. replace (-1 <? 0) with true by reflexivity.
  simpl List.length. rewrite Nat2Z.inj_succ.
  replace (-1 + Z.succ (Z.of_nat (List.length l)))
    with (Z.of_nat (List.length l)) by lia.
  replace (Z.of_nat (List.length l) <? 0) with false
    by (symmetry; apply Z.ltb_ge; lia).
  replace (Z.succ (Z.of_nat (List.length l)) <=? Z.of_nat (List.length l))
    with false by (symmetry; apply Z.leb_gt; lia).
  simpl orb. rewrite Nat2Z.id. now rewrite (nth_error_last l x).
Qed.

(* ------------------------------------------------------------------ *)
(** ** Limiting the number of slides *)

Lemma limit_slides_short (slides : list Slide) (slide_count : Z) :
  Z.of_nat (List.length slides) <= slide_count ->
  limit_slides slides slide_count = Ok slides.
Proof.
  intros Hle. unfold limit_slides.
  now replace (slide_count <? Z.of_nat (List.length slides)) with false
    by (symmetry; apply Z.ltb_ge; lia).
Qed.

Lemma limit_slides_long (first : Slide) (rest : list Slide) (slide_count : Z) :
  2 <= slide_count ->
  slide_count < Z.of_nat (List.length (first :: rest)) ->
  limit_slides (first :: rest) slide_count
  = Ok (first :: firstn (Z.to_nat (slide_count - 2)) rest
          ++ [List.last rest first]).
Proof.
  intros Hsc Hlt. unfold limit_slides.
  replace (slide_count <? Z.of_nat (List.length (first :: rest))) with true
    by (symmetry; apply Z.ltb_lt; lia).
  rewrite index_zero, index_minus_one. simpl bind.
  change 1 with (Z.of_nat 1).
  replace (slide_count - Z.of_nat 1)
    with (Z.of_nat 1 + Z.of_nat (Z.to_nat (slide_count - 2))) by lia.
  rewrite slice_nat by (simpl; lia). reflexivity.
Qed.

Lemma limit_slides_long_length (first : Slide) (rest : list Slide)
    (slide_count : Z) :
  2 <= slide_count ->
  slide_count < Z.of_nat (List.length (first :: rest)) ->
  Z.of_nat (List.length (first :: firstn (Z.to_nat (slide_count - 2)) rest
                           ++ [List.last rest first])) = slide_count.
Proof.
  intros Hsc Hlt. simpl List.length in *.
  rewrite length_app, length_firstn. simpl List.length. lia.
Qed.

(* ------------------------------------------------------------------ *)
(** ** The shape of the assembled slides *)

Lemma bind_ok_inv {A B} (m : result A) (k : A -> result B) (b : B) :
  bind m k = Ok b -> exists a, m = Ok a /\ k a = Ok b.
Proof. destruct m as [a|e]; simpl; [eauto | discriminate]. Qed.

Tactic Notation "bind_inv" hyp(H) :=
  let a := fresh "a" in
  let Ha := fresh "H" a in
  apply bind_ok_inv in H as (a & Ha & H).

Tactic Notation "bind_inv" hyp(H) "as" ident(a) ident(Ha) :=
  apply bind_ok_inv in H as (a & Ha & H).

Lemma for_each_Forall {A B} (f : A -> result B) (P : B -> Prop) :
  (forall x y, f x = Ok y -> P y) ->
  forall l ys, for_each f l = Ok ys -> Forall P ys.
Proof.
  intros Hf. induction l as [|x l IH]; simpl; intros ys Hys.
  - injection Hys as <-. constructor.
  - bind_inv Hys. bind_inv Hys. injection Hys as <-.
    constructor; [eapply Hf; eassumption | now apply IH].
Qed.

Lemma Forall_prefix {A} (P : A -> Prop) (n : nat) (l : list A) :
  Forall P l -> Forall P (firstn n l).
Proof.
  intros Hl. revert n. induction Hl as [|x l Hx _ IH]; intros [|n]; simpl;
    constructor; auto.
Qed.

Lemma for_each_length {A B} (f : A -> result B) (l : list A) (ys : list B) :
  for_each f l = Ok ys -> List.length ys = List.length l.
Proof.
  revert ys. induction l as [|x l IH]; simpl; intros ys Hys.
  - now injection Hys as <-.
  - bind_inv Hys. bind_inv Hys. injection Hys as <-. simpl.
    f_equal. now apply IH.
Qed.

Section Assembly.
Context `{PyStr}.

Lemma title_slide_shape ai_content points audience purpose first :
  title_slide ai_content points audience purpose = Ok first ->
  content first = [] /\ subtitle first <> None.
Proof.
  unfold title_slide. intros Hf. bind_inv Hf. bind_inv Hf.
  injection Hf as <-. simpl. split; [reflexivity | discriminate].
Qed.

Lemma point_slide_shape audience point_data s :
  point_slide audience point_data = Ok s -> content_slide s.
Proof.
  unfold point_slide. intros Hs. do 5 bind_inv Hs.
  injection Hs as <-. split; simpl; [reflexivity | discriminate].
Qed.

Lemma ai_closing_shape ai_content audience closing :
  ai_closing ai_content audience = Ok closing ->
  subtitle closing = None /\
  (content closing = [] ->
   Py.getitem ai_content "conclusion" = Ok (JList [])).
Proof.
  unfold ai_closing. intros Hc. bind_inv Hc as present Hpresent.
  destruct present.
  - bind_inv Hc as c Hget. destruct c; injection Hc as <-; simpl;
      (split; [reflexivity|]); try discriminate.
    intros ->. assumption.
  - injection Hc as <-. simpl. split; [reflexivity | discriminate].
Qed.

Lemma group_slide_shape group s :
  group_slide group = Ok s -> content_slide s.
Proof.
  unfold group_slide. intros Hs. bind_inv Hs as b Hb. injection Hs as <-.
  apply index_zero_inv in Hb as [rest ->].
  split; simpl; [reflexivity | discriminate].
Qed.

Lemma fallback_slides_shape points audience slide_count rest :
  fallback_slides points audience slide_count = Ok rest ->
  exists body,
    rest = body ++ [next_steps (generic_closing audience)] /\
    Forall content_slide body.
Proof.
  unfold fallback_slides. intros Hr. bind_inv Hr as body Hbody.
  injection Hr as <-. exists body. split; [reflexivity|].
  destruct (Z.of_nat (List.length points) <=? slide_count - 2).
  - injection Hbody as <-. apply Forall_map, Forall_forall. intros p _.
    split; simpl; [reflexivity | discriminate].
  - bind_inv Hbody as q Hq. eapply for_each_Forall; [|exact Hbody].
    intros i s. apply group_slide_shape.
Qed.

Lemma assemble_slides_shape ai_content points audience purpose slide_count
    slides :
  assemble_slides ai_content points audience purpose slide_count = Ok slides ->
  exists first body closing,
    slides = first :: body ++ [closing] /\
    title_slide ai_content points audience purpose = Ok first /\
    Forall content_slide body /\
    subtitle closing = None /\
    (content closing = [] -> empty_conclusion_used ai_content).
Proof.
  unfold assemble_slides. intros Hs. bind_inv Hs as first Hfirst.
  bind_inv Hs as use_ai Huse. bind_inv Hs as rest Hrest.
  injection Hs as <-. destruct use_ai.
  - unfold ai_slides in Hrest. bind_inv Hrest as pts Hpts.
    bind_inv Hrest as items Hitems. bind_inv Hrest as body Hbody.
    bind_inv Hrest as closing Hclosing. injection Hrest as <-.
    destruct (ai_closing_shape _ _ _ Hclosing) as [Hsub Hempty].
    exists first, body, closing.
    split; [reflexivity|]. split; [assumption|]. split; [|split].
    + eapply for_each_Forall; [|exact Hbody]. apply point_slide_shape.
    + assumption.
    + intros Hnone. split; [assumption | now apply Hempty].
  - destruct (fallback_slides_shape _ _ _ _ Hrest) as (body & -> & Hbody).
    exists first, body, (next_steps (generic_closing audience)).
    split; [reflexivity|]. split; [assumption|]. split; [assumption|].
    split; [reflexivity|]. simpl. discriminate.
Qed.

(** With room for the first and the last slide, limiting keeps both and as
    many of the slides between them as the count allows. *)
Lemma limit_slides_framed first body closing slide_count :
  2 <= slide_count ->
  limit_slides (first :: body ++ [closing]) slide_count
  = Ok (first :: firstn (Z.to_nat (slide_count - 2)) body ++ [closing]).
Proof.
  intros Hsc.
  destruct (Z_lt_le_dec slide_count
              (Z.of_nat (List.length (first :: body ++ [closing]))))
    as [Hlong|Hshort].
  - rewrite limit_slides_long by assumption.
    rewrite last_last. simpl List.length in Hlong.
    rewrite length_app in Hlong. simpl List.length in Hlong.
    rewrite firstn_app.
    replace (Z.to_nat (slide_count - 2) - List.length body)%nat with 0%nat
      by lia.
    simpl firstn. now rewrite app_nil_r.
  - rewrite limit_slides_short by assumption.
    simpl List.length in Hshort. rewrite length_app in Hshort.
    simpl List.length in Hshort.
    now rewrite firstn_all2 by lia.
Qed.

Context `{Collaborators}.

Lemma enhance_inv bullet_points audience purpose slide_count ai_enabled deck :
  extract_points bullet_points <> [] ->
  enhance_content_with_ai bullet_points audience purpose slide_count
    ai_enabled = Ok deck ->
  exists ai_content assembled,
    fetch_ai_content bullet_points audience purpose ai_enabled
    = Ok ai_content /\
    assemble_slides ai_content (extract_points bullet_points) audience
      purpose slide_count = Ok assembled /\
    limit_slides assembled slide_count = Ok deck.
Proof.
  unfold enhance_content_with_ai. intros Hpts Hdeck.
  destruct (extract_points bullet_points) as [|p ps]; [contradiction|].
  do 2 bind_inv Hdeck. eauto.
Qed.

(** C1: the returned deck is never longer than [slide_count]; a longer
    assembled sequence is cut to its first slide, the [slide_count - 2]
    slides after it and its last slide, which makes [slide_count] slides; a
    sequence that is not longer is returned as it is. *)
Theorem C1_deck_length_limited bullet_points audience purpose slide_count
    ai_enabled deck :
  3 <= slide_count <= 15 ->
  extract_points bullet_points <> [] ->
  enhance_content_with_ai bullet_points audience purpose slide_count
    ai_enabled = Ok deck ->
  exists ai_content assembled,
    fetch_ai_content bullet_points audience purpose ai_enabled
    = Ok ai_content /\
    assemble_slides ai_content (extract_points bullet_points) audience
      purpose slide_count = Ok assembled /\
    Z.of_nat (List.length deck) <= slide_count /\
    (slide_count < Z.of_nat (List.length assembled) ->
     exists first rest,
       assembled = first :: rest /\
       deck = first :: firstn (Z.to_nat (slide_count - 2)) rest
                ++ [List.last rest first] /\
       Z.of_nat (List.length deck) = slide_count) /\
    (Z.of_nat (List.length assembled) <= slide_count -> deck = assembled).
Proof.
  intros Hsc Hpts Hdeck.
  destruct (enhance_inv _ _ _ _ _ _ Hpts Hdeck)
    as (ai_content & assembled & Hai & Hasm & Hlim).
  exists ai_content, assembled. split; [exact Hai|]. split; [exact Hasm|].
  assert (Hlong : slide_count < Z.of_nat (List.length assembled) ->
     exists first rest,
       assembled = first :: rest /\
       deck = first :: firstn (Z.to_nat (slide_count - 2)) rest
                ++ [List.last rest first] /\
       Z.of_nat (List.length deck) = slide_count).
  { intros Hlt. destruct assembled as [|first rest]; [simpl in Hlt; lia|].
    rewrite limit_slides_long in Hlim by lia. injection Hlim as <-.
    exists first, rest. repeat split.
    apply limit_slides_long_length; lia. }
  assert (Hshort : Z.of_nat (List.length assembled) <= slide_count ->
                   deck = assembled).
  { intros Hle. rewrite limit_slides_short in Hlim by assumption.
    now injection Hlim. }
  repeat split; try assumption.
  destruct (Z_lt_le_dec slide_count (Z.of_nat (List.length assembled)))
    as [Hlt|Hle].
  - destruct (Hlong Hlt) as (_ & _ & _ & _ & ->). lia.
  - now rewrite (Hshort Hle).
Qed.

(** C2, as amended: the first slide of a returned deck has a subtitle and no
    content; every later slide has no subtitle; every later slide has
    content, except that the last one has none when the AI content was used
    and its conclusion is the empty list. *)
Theorem C2_slide_shapes bullet_points audience purpose slide_count
    ai_enabled deck :
  3 <= slide_count <= 15 ->
  extract_points bullet_points <> [] ->
  enhance_content_with_ai bullet_points audience purpose slide_count
    ai_enabled = Ok deck ->
  exists ai_content first middle closing,
    fetch_ai_content bullet_points audience purpose ai_enabled
    = Ok ai_content /\
    deck = first :: middle ++ [closing] /\
    content first = [] /\ subtitle first <> None /\
    Forall content_slide middle /\
    subtitle closing = None /\
    (content closing = [] -> empty_conclusion_used ai_content).
Proof.
  intros Hsc Hpts Hdeck.
  destruct (enhance_inv _ _ _ _ _ _ Hpts Hdeck)
    as (ai_content & assembled & Hai & Hasm & Hlim).
  destruct (assemble_slides_shape _ _ _ _ _ _ Hasm)
    as (first & body & closing & -> & Hfirst & Hbody & Hsub & Hempty).
  rewrite limit_slides_framed in Hlim by lia. injection Hlim as <-.
  destruct (title_slide_shape _ _ _ _ _ Hfirst) as [Hcontent Hsubtitle].
  exists ai_content, first, (firstn (Z.to_nat (slide_count - 2)) body), closing.
  split; [exact Hai|]. split; [reflexivity|].
  split; [assumption|]. split; [assumption|].
  split; [now apply Forall_prefix|]. split; assumption.
Qed.

End Assembly.

(* ------------------------------------------------------------------ *)
(** ** The AI branch *)

Section AIBranch.
Context `{PyStr}.

Lemma title_slide_of_dict (d : Py.dict) points audience purpose :
  exists first, title_slide (JObj d) points audience purpose = Ok first.
Proof.
  unfold title_slide. destruct d as [|kv d]; simpl Py.truthy; cbv iota.
  - simpl. eauto.
  - unfold Py.contains, Py.getitem.
    destruct (Py.lookup "title" (kv :: d)) as [t|]; cbn [bind]; eauto.
Qed.

Lemma has_points_list_of_dict (d : Py.dict) (items : list json) :
  Py.lookup "points" d = Some (JList items) ->
  has_points_list (JObj d) = Ok true.
Proof.
  intros Hp. unfold has_points_list.
  destruct d as [|kv d]; [discriminate|]. simpl Py.truthy. cbv iota.
  unfold Py.contains, Py.getitem. rewrite Hp. reflexivity.
Qed.

(** The lines of the closing slide that the AI branch appends. *)
Lemma ai_closing_of_dict (d : Py.dict) audience :
  exists lines,
    ai_closing (JObj d) audience = Ok (next_steps lines) /\
    (forall l, Py.lookup "conclusion" d = Some (JList l) -> lines = l) /\
    ((forall l, Py.lookup "conclusion" d <> Some (JList l)) ->
     lines = generic_closing audience).
Proof.
  unfold ai_closing, Py.contains, Py.getitem.
  destruct (Py.lookup "conclusion" d) as [c|] eqn:Hc; simpl.
  - destruct c; simpl;
      try (exists (generic_closing audience);
           split; [reflexivity|]; split; [discriminate | reflexivity]).
    exists l. split; [reflexivity|]. split.
    + now intros l' [= ->].
    + intros Hno. now destruct (Hno l).
  - exists (generic_closing audience).
    split; [reflexivity|]. split; [discriminate | reflexivity].
Qed.

Context `{Collaborators}.

(** C5, as amended: when the AI content has a list under ['points'] and the
    loop over it goes through, the deck is returned and ends with the closing
    slide, whose content is the value under ['conclusion'] when that key is
    there and holds a list, empty or not, and the fixed generic lines in every
    other case; an absent ['conclusion'] is one of those cases and raises
    nothing. *)
Theorem C5_closing_slide_content bullet_points audience purpose slide_count
    ai_enabled (d : Py.dict) (items : list json) (body : list Slide) :
  3 <= slide_count <= 15 ->
  extract_points bullet_points <> [] ->
  fetch_ai_content bullet_points audience purpose ai_enabled = Ok (JObj d) ->
  Py.lookup "points" d = Some (JList items) ->
  for_each (point_slide audience) items = Ok body ->
  exists first lines,
    enhance_content_with_ai bullet_points audience purpose slide_count
      ai_enabled
    = Ok (first :: firstn (Z.to_nat (slide_count - 2)) body
            ++ [next_steps lines]) /\
    (forall l, Py.lookup "conclusion" d = Some (JList l) -> lines = l) /\
    ((forall l, Py.lookup "conclusion" d <> Some (JList l)) ->
     lines = generic_closing audience).
Proof.
  intros Hsc Hpts Hai Hpoints Hbody.
  destruct (title_slide_of_dict d (extract_points bullet_points) audience
              purpose) as [first Hfirst].
  destruct (ai_closing_of_dict d audience) as (lines & Hclosing & Hlist & Hgen).
  exists first, lines. split; [|split; assumption].
  unfold enhance_content_with_ai.
  destruct (extract_points bullet_points) as [|p ps] eqn:Hp; [contradiction|].
  rewrite Hai. cbn [bind]. unfold assemble_slides.
  rewrite Hfirst. cbn [bind].
  rewrite (has_points_list_of_dict d items Hpoints). cbn [bind].
  unfold ai_slides. unfold Py.getitem at 1. rewrite Hpoints.
  cbn [bind Py.iterate]. rewrite Hbody. cbn [bind].
  rewrite Hclosing. cbn [bind].
  apply limit_slides_framed. lia.
Qed.

End AIBranch.

(* ------------------------------------------------------------------ *)
(** ** No bullets, and AI switched off *)

Section Orchestration.
Context `{PyStr}.

(** C8: when no line's trimmed form starts with the dash,
    [enhance_content_with_ai] returns the empty list and
    [generate_presentation] returns the message about the dash with no file
    path, without a call to the renderer. *)
Theorem C8_no_bullets_no_deck `{Collaborators}
    bullet_points audience purpose template slide_count use_ai font_color_hex :
  Forall (fun line => Text.startswith "-" (Text.strip line) = false)
         (Text.split "010" bullet_points) ->
  enhance_content_with_ai bullet_points audience purpose slide_count use_ai
  = Ok [] /\
  generate_presentation bullet_points audience purpose template slide_count
    use_ai font_color_hex
  = {| shown := "Error: Could not process bullet points. "
                +:+ "Make sure they start with '-'.";
       file_path := None;
       render_calls := [] |}.
Proof.
  intros Hnone.
  assert (Hdeck : enhance_content_with_ai bullet_points audience purpose
                    slide_count use_ai = Ok []).
  { unfold enhance_content_with_ai, extract_points.
    now rewrite (bullets_of_lines_none _ Hnone). }
  split; [exact Hdeck|].
  unfold generate_presentation. now rewrite Hdeck.
Qed.

(** With AI disabled no collaborator is consulted: the slides are assembled
    from the bullets with no AI content, then limited. *)
Lemma enhance_without_ai `{Collaborators}
    bullet_points audience purpose slide_count :
  enhance_content_with_ai bullet_points audience purpose slide_count false
  = match extract_points bullet_points with
    | [] => Ok []
    | p :: ps =>
        slides <- assemble_slides JNull (p :: ps) audience purpose
                    slide_count ;;
        limit_slides slides slide_count
    end.
Proof.
  unfold enhance_content_with_ai, fetch_ai_content.
  now destruct (extract_points bullet_points).
Qed.

(** C9: with AI disabled the result does not depend on what the model, the
    decoder or any other collaborator would do: two runs on the same bullet
    text, audience, purpose and slide count give the same result. *)
Theorem C9_fallback_deterministic (run1 run2 : Collaborators)
    bullet_points audience purpose slide_count :
  @enhance_content_with_ai _ run1 bullet_points audience purpose slide_count
    false
  = @enhance_content_with_ai _ run2 bullet_points audience purpose slide_count
      false.
Proof.
  rewrite (@enhance_without_ai run1), (@enhance_without_ai run2).
  reflexivity.
Qed.

End Orchestration.

(* ------------------------------------------------------------------ *)
(** ** Consecutive groups of a list *)

Section Chunks.
Context {A : Type}.
Variables (l : list A) (k m : nat).
Hypothesis k_pos : (1 <= k)%nat.
Hypothesis m_low : ((m - 1) * k < List.length l)%nat.
Hypothesis m_high : (List.length l <= m * k)%nat.

Lemma firstn_plus (a b : nat) (xs : list A) :
  firstn (a + b) xs = firstn a xs ++ firstn b (skipn a xs).
Proof.
  revert xs. induction a as [|a IH]; intros xs; [reflexivity|].
  destruct xs as [|x xs]; simpl.
  - now rewrite firstn_nil.
  - now rewrite IH.
Qed.

Lemma concat_chunks_prefix (c : nat) :
  concat (map (chunk l k) (seq 0 c)) = firstn (c * k) l.
Proof.
  induction c as [|c IH]; [reflexivity|].
  rewrite seq_S, map_app, concat_app, IH. simpl.
  rewrite app_nil_r. unfold chunk.
  replace (k + c * k)%nat with (c * k + k)%nat by lia.
  now rewrite firstn_plus.
Qed.

Lemma concat_chunks : concat (map (chunk l k) (seq 0 m)) = l.
Proof. rewrite concat_chunks_prefix. now apply firstn_all2. Qed.

Lemma chunk_length (j : nat) :
  List.length (chunk l k j) = Nat.min k (List.length l - j * k).
Proof. unfold chunk. now rewrite length_firstn, length_skipn. Qed.

Lemma chunk_full (j : nat) : (S j < m)%nat -> List.length (chunk l k j) = k.
Proof. intros Hj. rewrite chunk_length. nia. Qed.

Lemma chunk_last : (1 <= List.length (chunk l k (m - 1)) <= k)%nat.
Proof. rewrite chunk_length. lia. Qed.

Lemma chunk_nonempty (j : nat) : (j < m)%nat -> chunk l k j <> [].
Proof.
  intros Hj Hnil. apply (f_equal (@List.length A)) in Hnil.
  rewrite chunk_length in Hnil. simpl in Hnil. nia.
Qed.

Lemma m_pos : (1 <= m)%nat.
Proof. nia. Qed.

Lemma seq_snoc (c : nat) :
  (1 <= c)%nat -> seq 0 c = seq 0 (c - 1) ++ [(c - 1)%nat].
Proof.
  destruct c as [|c]; [lia|]. intros _.
  replace (S c - 1)%nat with c by lia. apply seq_S.
Qed.

Lemma chunks_but_last :
  Forall (fun g => List.length g = k) (removelast (map (chunk l k) (seq 0 m))).
Proof.
  rewrite (seq_snoc m m_pos), map_app. simpl map. rewrite removelast_last.
  apply Forall_map, Forall_forall. intros j Hj. apply in_seq in Hj.
  apply chunk_full. lia.
Qed.

Lemma chunks_last : List.last (map (chunk l k) (seq 0 m)) [] = chunk l k (m - 1).
Proof.
  rewrite (seq_snoc m m_pos), map_app. simpl map. apply last_last.
Qed.

End Chunks.

(** The number of groups [range] steps through, and the bounds it satisfies. *)
Lemma group_count_bounds (n k : Z) :
  1 <= n -> 1 <= k ->
  let m := Z.to_nat ((n + k - 1) / k) in
  ((m - 1) * Z.to_nat k < Z.to_nat n)%nat /\
  (Z.to_nat n <= m * Z.to_nat k)%nat.
Proof.
  intros Hn Hk m.
  pose proof (Z.mul_div_le (n + k - 1) k ltac:(lia)) as Hlow.
  pose proof (Z.mul_succ_div_gt (n + k - 1) k ltac:(lia)) as Hhigh.
  assert (Hm : 1 <= (n + k - 1) / k)
    by (apply Z.div_le_lower_bound; lia).
  subst m. split.
  - apply Nat2Z.inj_lt. rewrite Nat2Z.inj_mul, Nat2Z.inj_sub by lia.
    rewrite !Z2Nat.id by lia. simpl Z.of_nat. nia.
  - apply Nat2Z.inj_le. rewrite Nat2Z.inj_mul. rewrite !Z2Nat.id by lia. nia.
Qed.

Lemma range_from_zero (n k : Z) :
  Py.range 0 n k
  = map (fun j => Z.of_nat j * k) (seq 0 (Z.to_nat ((n + k - 1) / k))).
Proof.
  unfold Py.range. rewrite Z.sub_0_r. apply map_ext. intros j. lia.
Qed.

Lemma slice_chunk {A} (l : list A) (k j : nat) :
  (j * k <= List.length l)%nat ->
  Py.slice l (Z.of_nat j * Z.of_nat k) (Z.of_nat j * Z.of_nat k + Z.of_nat k)
  = chunk l k j.
Proof.
  intros Hj. rewrite <- Nat2Z.inj_mul. now apply slice_nat.
Qed.

Lemma for_each_ok {A B} (f : A -> result B) (g : A -> B) (l : list A) :
  (forall x, In x l -> f x = Ok (g x)) -> for_each f l = Ok (map g l).
Proof.
  induction l as [|x l IH]; intros Hf; [reflexivity|].
  simpl. rewrite (Hf x (or_introl eq_refl)). cbn [bind].
  rewrite IH by (intros y Hy; apply Hf; now right). reflexivity.
Qed.

(* ------------------------------------------------------------------ *)
(** ** The fallback branch with more bullets than slides *)

Section Fallback.
Context `{PyStr}.

Lemma title_words_firstn (text : string) :
  title_words text
  = str_title (Text.join " " (firstn 3 (Text.split_ws text))).
Proof.
  unfold title_words. rewrite slice_from_zero by lia. do 2 f_equal.
  destruct (Z.min_spec 3 (Z.of_nat (List.length (Text.split_ws text))))
    as [[Hlt ->]|[Hge ->]]; [reflexivity|].
  rewrite Nat2Z.id. rewrite !firstn_all2; [reflexivity | lia | lia].
Qed.

Lemma group_slide_cons (b : string) (rest : list string) :
  group_slide (b :: rest) = Ok (group_slide_of (b :: rest)).
Proof. unfold group_slide. now rewrite index_zero. Qed.

Lemma group_slide_of_spec (group : list string) :
  group <> [] -> is_group_slide group (group_slide_of group).
Proof.
  destruct group as [|b rest]; [contradiction|]. intros _.
  exists b, rest. repeat split. simpl. now rewrite title_words_firstn.
Qed.

Lemma Forall2_group_slides (groups : list (list string)) :
  Forall (fun g => g <> []) groups ->
  Forall2 is_group_slide groups (map group_slide_of groups).
Proof.
  induction 1 as [|g groups Hg _ IH]; simpl; constructor;
    [now apply group_slide_of_spec | exact IH].
Qed.

Section Grouped.
Variables (points : list string) (audience : string) (slide_count : Z).
Hypothesis budget_pos : 1 <= slide_count - 2.
Hypothesis more_bullets : slide_count - 2 < Z.of_nat (List.length points).

(** [points_per_slide], and the number of groups. *)
Let per_slide : Z := Z.of_nat (List.length points) / (slide_count - 2).
Let group_count : nat :=
  Z.to_nat ((Z.of_nat (List.length points) + per_slide - 1) / per_slide).

Lemma per_slide_pos : 1 <= per_slide.
Proof. subst per_slide. apply Z.div_le_lower_bound; lia. Qed.

Lemma per_slide_budget : per_slide * (slide_count - 2)
                         <= Z.of_nat (List.length points).
Proof.
  subst per_slide. rewrite Z.mul_comm. apply Z.mul_div_le. lia.
Qed.

Lemma group_bounds :
  ((group_count - 1) * Z.to_nat per_slide < List.length points)%nat /\
  (List.length points <= group_count * Z.to_nat per_slide)%nat.
Proof.
  pose proof per_slide_pos as Hk.
  pose proof (group_count_bounds (Z.of_nat (List.length points)) per_slide
                ltac:(lia) Hk) as Hb.
  cbv zeta in Hb. rewrite Nat2Z.id in Hb. exact Hb.
Qed.

(** Floor division never leaves fewer groups than the budget. *)
Lemma group_count_budget : slide_count - 2 <= Z.of_nat group_count.
Proof.
  pose proof per_slide_pos as Hk. pose proof per_slide_budget as Hb.
  destruct group_bounds as [_ Hhigh].
  apply Nat2Z.inj_le in Hhigh. rewrite Nat2Z.inj_mul in Hhigh.
  rewrite Z2Nat.id in Hhigh by lia. nia.
Qed.

Lemma fallback_slides_grouped :
  fallback_slides points audience slide_count
  = Ok (map group_slide_of
          (map (chunk points (Z.to_nat per_slide)) (seq 0 group_count))
        ++ [next_steps (generic_closing audience)]).
Proof.
  pose proof per_slide_pos as Hk. destruct group_bounds as [Hlow Hhigh].
  unfold fallback_slides. cbv zeta.
  replace (Z.of_nat (List.length points) <=? slide_count - 2) with false
    by (symmetry; apply Z.leb_gt; lia).
  unfold Py.floordiv.
  replace (slide_count - 2 =? 0) with false
    by (symmetry; apply Z.eqb_neq; lia).
  cbn [bind]. fold per_slide. rewrite (Z.max_r 1 per_slide) by lia.
  rewrite range_from_zero. fold group_count.
  assert (Hkn : per_slide = Z.of_nat (Z.to_nat per_slide)) by lia.
  set (kn := Z.to_nat per_slide) in *. clearbody kn group_count.
  rewrite Hkn. clear Hkn.
  rewrite (for_each_ok _
             (fun i => group_slide_of (Py.slice points i (i + Z.of_nat kn)))).
  - cbn [bind]. do 2 f_equal. rewrite !map_map. apply map_ext_in.
    intros j Hj. apply in_seq in Hj. f_equal. apply slice_chunk. nia.
  - intros i Hi. apply in_map_iff in Hi as (j & <- & Hj).
    apply in_seq in Hj. rewrite slice_chunk by nia.
    pose proof (chunk_nonempty points kn group_count
                  ltac:(lia) Hlow Hhigh j ltac:(lia)) as Hne.
    destruct (chunk points kn j) as [|b rest]; [contradiction|].
    apply group_slide_cons.
Qed.

End Grouped.

(** C4, as amended: with more bullets than [slide_count - 2], the bullets
    are cut, in order, into consecutive groups of
    [len(points) // (slide_count - 2)] bullets, the last group alone being
    possibly shorter; each group gives one slide whose content is the group
    and whose title is the title-cased first three words, or fewer, of the
    group's first bullet. *)
Theorem C4_groups_by_floor_division (points : list string)
    (audience : string) (slide_count : Z) :
  3 <= slide_count <= 15 ->
  slide_count - 2 < Z.of_nat (List.length points) ->
  let size := Z.to_nat (Z.of_nat (List.length points) / (slide_count - 2)) in
  exists groups body,
    fallback_slides points audience slide_count
    = Ok (body ++ [next_steps (generic_closing audience)]) /\
    concat groups = points /\
    Forall (fun g => List.length g = size) (removelast groups) /\
    (1 <= List.length (List.last groups []) <= size)%nat /\
    Forall2 is_group_slide groups body.
Proof.
  intros Hsc Hmore size.
  assert (Hbudget : 1 <= slide_count - 2) by lia.
  pose proof (per_slide_pos points slide_count Hbudget Hmore) as Hk.
  destruct (group_bounds points slide_count Hbudget Hmore) as [Hlow Hhigh].
  set (m := Z.to_nat
              ((Z.of_nat (List.length points)
                + Z.of_nat (List.length points) / (slide_count - 2) - 1)
               / (Z.of_nat (List.length points) / (slide_count - 2)))) in *.
  fold size in Hlow, Hhigh.
  assert (Hsize : (1 <= size)%nat) by (subst size; lia).
  exists (map (chunk points size) (seq 0 m)).
  exists (map group_slide_of (map (chunk points size) (seq 0 m))).
  split; [now apply fallback_slides_grouped|].
  split; [now apply concat_chunks|].
  split; [now apply chunks_but_last|].
  split.
  - rewrite chunks_last by assumption. now apply chunk_last.
  - apply Forall2_group_slides, Forall_map, Forall_forall.
    intros j Hj. apply in_seq in Hj.
    apply (chunk_nonempty points size m Hsize Hlow Hhigh). lia.
Qed.

Context `{Collaborators}.

(** C10: in the grouped fallback, that is with AI content that gives no
    ['points'] list and more bullets than [slide_count - 2], the deck is
    returned and has [slide_count] slides exactly. *)
Theorem C10_grouped_fallback_full_deck bullet_points audience purpose
    slide_count ai_enabled (ai_content : json) (first : Slide) :
  3 <= slide_count <= 15 ->
  slide_count - 2 < Z.of_nat (List.length (extract_points bullet_points)) ->
  fetch_ai_content bullet_points audience purpose ai_enabled
  = Ok ai_content ->
  has_points_list ai_content = Ok false ->
  title_slide ai_content (extract_points bullet_points) audience purpose
  = Ok first ->
  exists deck,
    enhance_content_with_ai bullet_points audience purpose slide_count
      ai_enabled = Ok deck /\
    Z.of_nat (List.length deck) = slide_count.
Proof.
  intros Hsc Hmore Hai Hno Hfirst.
  assert (Hbudget : 1 <= slide_count - 2) by lia.
  pose proof (group_count_budget _ _ Hbudget Hmore) as Hcount.
  unfold enhance_content_with_ai.
  destruct (extract_points bullet_points) as [|p ps] eqn:Hp;
    [simpl in Hmore; lia|].
  rewrite Hai. cbn [bind]. unfold assemble_slides.
  rewrite Hfirst. cbn [bind]. rewrite Hno. cbn [bind].
  rewrite (fallback_slides_grouped _ audience _ Hbudget Hmore). cbn [bind].
  rewrite limit_slides_framed by lia.
  eexists. split; [reflexivity|].
  match type of Hcount with _ <= Z.of_nat ?m => set (groups := m) in * end.
  clearbody groups.
  cbn [List.length]. rewrite length_app, length_firstn, !length_map, length_seq.
  cbn [List.length]. lia.
Qed.

End Fallback.

(* ================================================================== *)
(** * Further properties *)

(** ** The colour conversion *)

Lemma in_all_ascii (c : ascii) : In c all_ascii.
Proof.
  unfold all_ascii. rewrite <- (ascii_nat_embedding c).
  apply in_map, in_seq. pose proof (nat_ascii_bounded c). lia.
Qed.

Lemma for_all_ascii (p : ascii -> bool) :
  forallb p all_ascii = true -> forall c, p c = true.
Proof.
  intros Hall c. exact (proj1 (forallb_forall p all_ascii) Hall c
                          (in_all_ascii c)).
Qed.

Lemma int16_raises_value_error (s : string) (e : exn) :
  Colour.int16 s = Raise e -> e = ValueError.
Proof.
  unfold Colour.int16.
  destruct (match Text.lstrip_by Colour.int_space s with
            | String "+" r => (false, r)
            | String "-" r => (true, r)
            | _ => (false, Text.lstrip_by Colour.int_space s)
            end) as [negative s2].
  destruct (Colour.after_prefix s2) as [|c s3].
  - destruct (Colour.digits false false 0 EmptyString) as [[n tail]|];
      [|now intros [= <-]].
    destruct (Text.lstrip_by Colour.int_space tail);
      [discriminate | now intros [= <-]].
  - destruct (Ascii.eqb c "_") eqn:Hc.
    + apply Ascii.eqb_eq in Hc as ->. now intros [= <-].
    + assert (Hgo : match Colour.digits false false 0 (String c s3) with
                    | Some (n, tail) =>
                        match Text.lstrip_by Colour.int_space tail with
                        | EmptyString => Ok (if negative then - n else n)
                        | String _ _ => Raise ValueError
                        end
                    | None => Raise ValueError
                    end = Raise e -> e = ValueError).
      { destruct (Colour.digits false false 0 (String c s3)) as [[n tail]|];
          [|now intros [= <-]].
        destruct (Text.lstrip_by Colour.int_space tail);
          [discriminate | now intros [= <-]]. }
      destruct c as [[] [] [] [] [] [] [] []]; try exact Hgo; discriminate Hc.
Qed.

Lemma hex_to_rgb_raises_value_error (s : string) (e : exn) :
  Colour.hex_to_rgb s = Raise e -> e = ValueError.
Proof.
  unfold Colour.hex_to_rgb.
  destruct (Colour.int16 (Colour.pair_at 0 (Text.lstrip "#" s))) eqn:Hr;
    cbn [bind]; [|intros [= <-]; eapply int16_raises_value_error; eassumption].
  destruct (Colour.int16 (Colour.pair_at 2 (Text.lstrip "#" s))) eqn:Hg;
    cbn [bind]; [|intros [= <-]; eapply int16_raises_value_error; eassumption].
  destruct (Colour.int16 (Colour.pair_at 4 (Text.lstrip "#" s))) eqn:Hb;
    cbn [bind]; [discriminate|].
  intros [= <-]; eapply int16_raises_value_error; eassumption.
Qed.

(** What [format_02x] writes for a byte is two characters, neither of them
    the hash sign, that [int16] reads back as the byte. *)
Definition byte_reads_back (n : nat) : bool :=
  match Colour.format_02x (Z.of_nat n) with
  | String a (String b EmptyString) =>
      negb (Text.char_in a "#") &&
      match Colour.int16 (String a (String b EmptyString)) with
      | Ok v => v =? Z.of_nat n
      | Raise _ => false
      end
  | _ => false
  end.

Lemma bytes_read_back : forallb byte_reads_back (seq 0 256) = true.
Proof. vm_compute. reflexivity. Qed.

Lemma format_02x_byte (n : Z) :
  0 <= n <= 255 ->
  exists a b,
    Colour.format_02x n = String a (String b EmptyString) /\
    Text.char_in a "#" = false /\
    Colour.int16 (String a (String b EmptyString)) = Ok n.
Proof.
  intros Hn.
  pose proof (proj1 (forallb_forall _ _) bytes_read_back (Z.to_nat n)
                ltac:(apply in_seq; lia)) as Hbyte.
  unfold byte_reads_back in Hbyte. rewrite Z2Nat.id in Hbyte by lia.
  destruct (Colour.format_02x n) as [|a [|b [|]]]; try discriminate.
  apply andb_true_iff in Hbyte as [Ha Hv].
  exists a, b. split; [reflexivity|]. split; [now apply negb_true_iff|].
  destruct (Colour.int16 (String a (String b EmptyString))); [|discriminate].
  f_equal. now apply Z.eqb_eq.
Qed.

(** The conversion of a hash sign and three pairs of characters. *)
Lemma hex_to_rgb_of_pairs (r1 r2 g1 g2 b1 b2 : ascii) :
  Text.char_in r1 "#" = false ->
  Colour.hex_to_rgb
    ("#" +:+ String r1 (String r2 EmptyString)
         +:+ String g1 (String g2 EmptyString)
         +:+ String b1 (String b2 EmptyString))
  = (r <- Colour.int16 (String r1 (String r2 EmptyString)) ;;
     g <- Colour.int16 (String g1 (String g2 EmptyString)) ;;
     b <- Colour.int16 (String b1 (String b2 EmptyString)) ;;
     Ok (r, g, b)).
Proof.
  intros Hr1. unfold Colour.hex_to_rgb, Text.lstrip.
  cbn [String.append Text.lstrip_by Text.char_in].
  rewrite Ascii.eqb_refl. cbn [orb].
  cbn [Text.char_in] in Hr1. rewrite Hr1. reflexivity.
Qed.

(** X1: a colour with components between 0 and 255, written the way the
    palette display writes it, is read back by [hex_to_rgb] as it was. *)
Theorem hex_to_rgb_inverts_palette_hex (r g b : Z) :
  0 <= r <= 255 -> 0 <= g <= 255 -> 0 <= b <= 255 ->
  Colour.hex_to_rgb (Colour.palette_hex (r, g, b)) = Ok (r, g, b).
Proof.
  intros Hr Hg Hb. unfold Colour.palette_hex.
  destruct (format_02x_byte r Hr) as (r1 & r2 & -> & Hr1 & Hrv).
  destruct (format_02x_byte g Hg) as (g1 & g2 & -> & _ & Hgv).
  destruct (format_02x_byte b Hb) as (b1 & b2 & -> & _ & Hbv).
  rewrite (hex_to_rgb_of_pairs _ _ _ _ _ _ Hr1).
  now rewrite Hrv, Hgv, Hbv.
Qed.

Lemma pair_at_4_short (h : string) :
  (String.length h < 5)%nat -> Colour.pair_at 4 h = EmptyString.
Proof.
  intros Hlen. unfold Colour.pair_at.
  destruct h as [|c1 [|c2 [|c3 [|c4 [|c5 h]]]]]; try reflexivity.
  simpl in Hlen. lia.
Qed.

Lemma hex_to_rgb_short_not_ok (hex_color : string) (c : rgb) :
  (String.length (Text.lstrip "#" hex_color) < 5)%nat ->
  Colour.hex_to_rgb hex_color <> Ok c.
Proof.
  intros Hlen Hrun. unfold Colour.hex_to_rgb in Hrun.
  rewrite (pair_at_4_short _ Hlen) in Hrun.
  destruct (Colour.int16 (Colour.pair_at 0 (Text.lstrip "#" hex_color)));
    [|discriminate].
  destruct (Colour.int16 (Colour.pair_at 2 (Text.lstrip "#" hex_color)));
    discriminate.
Qed.

(** X2: a colour text with fewer than five characters after its leading
    hash signs is refused with [ValueError]. *)
Theorem hex_to_rgb_short_text_raises (hex_color : string) :
  (String.length (Text.lstrip "#" hex_color) < 5)%nat ->
  Colour.hex_to_rgb hex_color = Raise ValueError.
Proof.
  intros Hlen.
  destruct (Colour.hex_to_rgb hex_color) as [c|e] eqn:Hrun.
  - now destruct (hex_to_rgb_short_not_ok hex_color c Hlen).
  - f_equal. now apply (hex_to_rgb_raises_value_error hex_color).
Qed.

Lemma lstrip_by_app p (h tail : string) :
  Text.lstrip_by p h <> EmptyString ->
  Text.lstrip_by p (h +:+ tail) = Text.lstrip_by p h +:+ tail.
Proof.
  induction h as [|c h IH]; cbn [Text.lstrip_by String.append];
    [contradiction|].
  destruct (p c); [exact IH | reflexivity].
Qed.

Lemma substring_app_inside (n m : nat) (x tail : string) :
  (n + m <= String.length x)%nat ->
  String.substring n m (x +:+ tail) = String.substring n m x.
Proof.
  revert n m. induction x as [|c x IH]; intros n m Hlen.
  - simpl in Hlen. assert (n = 0%nat) by lia. assert (m = 0%nat) by lia.
    subst. now destruct tail.
  - simpl in Hlen. destruct n as [|n].
    + destruct m as [|m]; [reflexivity|].
      cbn [String.append String.substring]. f_equal. apply IH. lia.
    + cbn [String.append String.substring]. apply IH. lia.
Qed.

(** X3: once six characters follow the leading hash signs, whatever comes
    after them is ignored. *)
Theorem hex_to_rgb_ignores_the_rest (hex_color rest : string) :
  (6 <= String.length (Text.lstrip "#" hex_color))%nat ->
  Colour.hex_to_rgb (hex_color +:+ rest) = Colour.hex_to_rgb hex_color.
Proof.
  intros Hlen. unfold Colour.hex_to_rgb, Colour.pair_at.
  assert (Hstrip : Text.lstrip "#" (hex_color +:+ rest)
                   = Text.lstrip "#" hex_color +:+ rest).
  { apply lstrip_by_app. intros Hnil. unfold Text.lstrip in Hlen.
    rewrite Hnil in Hlen. simpl in Hlen. lia. }
  rewrite Hstrip. now rewrite !substring_app_inside by lia.
Qed.

Lemma substring_length_le (n m : nat) (s : string) :
  (String.length (String.substring n m s) <= m)%nat.
Proof.
  revert n m. induction s as [|c s IH]; intros [|n] [|m]; simpl; try lia.
  - specialize (IH 0%nat m). lia.
  - apply IH.
  - apply IH.
Qed.

(** A text of one or two characters that [int16] accepts is worth between
    -15 and 255. *)
Definition in_pair_range (s : string) : bool :=
  match Colour.int16 s with
  | Ok v => (-15 <=? v) && (v <=? 255)
  | Raise _ => true
  end.

Lemma pairs_in_range :
  forallb (fun a =>
             in_pair_range (String a EmptyString) &&
             forallb (fun b => in_pair_range (String a (String b EmptyString)))
                     all_ascii) all_ascii = true.
Proof. vm_compute. reflexivity. Qed.

Lemma int16_short_range (s : string) (v : Z) :
  (String.length s <= 2)%nat -> Colour.int16 s = Ok v -> -15 <= v <= 255.
Proof.
  intros Hlen Hv.
  assert (Hin : in_pair_range s = true).
  { destruct s as [|a [|b [|c s]]].
    - reflexivity.
    - pose proof (for_all_ascii _ pairs_in_range a) as Ha.
      now apply andb_true_iff in Ha as [Ha _].
    - pose proof (for_all_ascii _ pairs_in_range a) as Ha.
      apply andb_true_iff in Ha as [_ Ha].
      exact (for_all_ascii _ Ha b).
    - simpl in Hlen. lia. }
  unfold in_pair_range in Hin. rewrite Hv in Hin.
  apply andb_true_iff in Hin as [Hlow Hhigh].
  apply Z.leb_le in Hlow, Hhigh. lia.
Qed.

(** X4: every component [hex_to_rgb] returns lies between -15 and 255; it
    is not always a byte. *)
Theorem hex_to_rgb_component_range (hex_color : string) (r g b : Z) :
  Colour.hex_to_rgb hex_color = Ok (r, g, b) ->
  -15 <= r <= 255 /\ -15 <= g <= 255 /\ -15 <= b <= 255.
Proof.
  unfold Colour.hex_to_rgb, Colour.pair_at. intros Hrun.
  bind_inv Hrun as r' Hr. bind_inv Hrun as g' Hg. bind_inv Hrun as b' Hb.
  injection Hrun as -> -> ->.
  repeat split;
    (eapply int16_short_range; [apply substring_length_le | eassumption]).
Qed.

(* ------------------------------------------------------------------ *)
(** ** The templates *)

Lemma template_for_listed (template_name : string) :
  In (Colour.template_for template_name) (map snd Colour.TEMPLATES).
Proof.
  unfold Colour.template_for, Colour.TEMPLATES.
  cbn [Colour.find_template map snd].
  repeat (destruct (String.eqb template_name _); [simpl; tauto|]).
  simpl. tauto.
Qed.

(** X5: whatever template name is asked for, known or not, the bar at the
    top of every slide has the template's accent colour, a colour of the
    palette, and the content background is white; a name that is not a
    template's gets the colours of ['ucl-blue']. *)
Theorem top_bar_is_official_accent (template_name : string) (i : nat) :
  let t := Colour.template_for template_name in
  Colour.top_bar t i = Colour.accent t /\
  In (Colour.accent t) (map snd Colour.UCL_COLORS) /\
  Colour.content_bg t = Colour.WHITE /\
  (Colour.find_template template_name Colour.TEMPLATES = None ->
   t = Colour.ucl_blue).
Proof.
  intros t.
  assert (Hall : Forall (fun t => Colour.title_bg t = Colour.accent t /\
                                  In (Colour.accent t)
                                     (map snd Colour.UCL_COLORS) /\
                                  Colour.content_bg t = Colour.WHITE)
                        (map snd Colour.TEMPLATES)).
  { repeat constructor; simpl; tauto. }
  pose proof (proj1 (Forall_forall _ _) Hall t
                (template_for_listed template_name)) as (Hbar & Hin & Hbg).
  split; [destruct i; [exact Hbar | reflexivity]|].
  split; [exact Hin|]. split; [exact Hbg|].
  intros Hnone. subst t. unfold Colour.template_for. now rewrite Hnone.
Qed.

(* ------------------------------------------------------------------ *)
(** ** Writing bullets and reading them back *)

Lemma split_without_sep sep (w : string) :
  Text.char_in sep w = false -> Text.split sep w = [w].
Proof.
  induction w as [|c w IH]; cbn [Text.split Text.char_in]; [reflexivity|].
  intros Hc. apply orb_false_iff in Hc as [Hc Hw].
  rewrite Ascii.eqb_sym, Hc. now rewrite (IH Hw).
Qed.

Lemma split_at_sep sep (w rest : string) :
  Text.char_in sep w = false ->
  Text.split sep (w +:+ String sep rest) = w :: Text.split sep rest.
Proof.
  induction w as [|c w IH]; cbn [Text.split Text.char_in String.append].
  - intros _. now rewrite Ascii.eqb_refl.
  - intros Hc. apply orb_false_iff in Hc as [Hc Hw].
    rewrite Ascii.eqb_sym, Hc. now rewrite (IH Hw).
Qed.

Lemma split_of_join sep (l : list string) :
  l <> [] ->
  Forall (fun w => Text.char_in sep w = false) l ->
  Text.split sep (Text.join (String sep EmptyString) l) = l.
Proof.
  intros Hne Hall. unfold Text.join.
  induction Hall as [|w l Hw Hl IH]; [contradiction|].
  destruct l as [|w' l].
  - cbn [String.concat]. now apply split_without_sep.
  - cbn [String.concat] in *. cbn [String.append].
    rewrite (split_at_sep sep w _ Hw). f_equal. apply IH. discriminate.
Qed.

Lemma lstrip_by_fixed p (s : string) :
  head_avoids p s -> Text.lstrip_by p s = s.
Proof. destruct s as [|c s]; simpl; [reflexivity | now intros ->]. Qed.

Lemma rstrip_by_fixed p (s : string) :
  last_avoids p s -> Text.rstrip_by p s = s.
Proof.
  induction s as [|c s IH]; [reflexivity|].
  cbn [Text.rstrip_by last_avoids]. destruct s as [|d s].
  - cbn [Text.rstrip_by]. now intros ->.
  - intros Hlast. now rewrite (IH Hlast).
Qed.

Lemma last_avoids_cons p (c : ascii) (s : string) :
  s <> EmptyString -> last_avoids p s -> last_avoids p (String c s).
Proof. destruct s; [contradiction | auto]. Qed.

Lemma bullet_of_dashed (b : string) :
  clean_bullet b ->
  Text.startswith "-" (Text.strip ("- " +:+ b)) = true /\
  Text.lstrip "- " (Text.strip ("- " +:+ b)) = b.
Proof.
  intros (_ & Hhead & Hlast). unfold Text.strip.
  cbn [String.append Text.lstrip_by].
  change (Text.is_space "-") with false. cbv iota.
  destruct b as [|c b].
  - split; reflexivity.
  - rewrite rstrip_by_fixed.
    + split; [reflexivity|]. unfold Text.lstrip.
      change (fun c0 : ascii => Text.char_in c0 "- ") with dash_or_space.
      cbn [Text.lstrip_by].
      change (dash_or_space "-") with true.
      change (dash_or_space " ") with true. cbv iota.
      simpl in Hhead. now rewrite Hhead.
    + apply last_avoids_cons; [discriminate|].
      apply last_avoids_cons; [discriminate | exact Hlast].
Qed.

Lemma bullets_of_dashed_lines (bullets : list string) :
  Forall clean_bullet bullets ->
  bullets_of_lines (map (fun b => "- " +:+ b) bullets) = bullets.
Proof.
  induction 1 as [|b bullets Hb _ IH]; [reflexivity|].
  cbn [map bullets_of_lines]. rewrite qualifies_iff.
  destruct (bullet_of_dashed b Hb) as [-> ->]. now rewrite IH.
Qed.

(** X6: clean bullets written one per line, each after a dash and a space,
    are read back as they were, in order. *)
Theorem bullets_read_back (bullets : list string) :
  Forall clean_bullet bullets ->
  extract_points
    (Text.join (String "010" EmptyString)
               (map (fun b => "- " +:+ b) bullets)) = bullets.
Proof.
  intros Hclean. unfold extract_points.
  destruct bullets as [|b bullets]; [reflexivity|].
  rewrite split_of_join.
  - now apply bullets_of_dashed_lines.
  - discriminate.
  - apply Forall_map. eapply Forall_impl; [|exact Hclean].
    intros a (Hline & _). cbn [String.append Text.char_in].
    now rewrite Hline.
Qed.

(* ------------------------------------------------------------------ *)
(** ** The two ends of a deck, for any slide count *)

Lemma in_firstn {A} (n : nat) (l : list A) (y : A) :
  In y (firstn n l) -> In y l.
Proof.
  revert l. induction n as [|n IH]; intros [|x l]; simpl; try tauto.
  intros [Hy|Hy]; [now left | right; now apply IH].
Qed.

Lemma in_removelast {A} (l : list A) (y : A) :
  In y (removelast l) -> In y l.
Proof.
  induction l as [|x l IH]; [tauto|]. destruct l as [|x' l]; [simpl; tauto|].
  cbn [removelast]. intros [Hy|Hy]; [now left | right; now apply IH].
Qed.

Lemma slice_from_one_incl {A} (x : A) (rest : list A) (hi : Z) :
  rest <> [] -> incl (Py.slice (x :: rest) 1 hi) rest.
Proof.
  intros Hne. unfold Py.slice. cbn zeta.
  replace (1 <? 0) with false by reflexivity.
  rewrite (Z.min_l 1) by (destruct rest; [contradiction | simpl List.length; lia]).
  change (Z.to_nat 1) with 1%nat. cbn [skipn].
  intros y Hy. now apply in_firstn in Hy.
Qed.

(** Limiting never fails on a list of two slides or more, and keeps its
    first and its last slide around slides of the list. *)
Lemma limit_slides_any (first : Slide) (rest : list Slide) (slide_count : Z) :
  rest <> [] ->
  exists middle,
    limit_slides (first :: rest) slide_count
    = Ok (first :: middle ++ [List.last rest first]) /\
    incl middle rest.
Proof.
  intros Hne. unfold limit_slides.
  destruct (slide_count <? Z.of_nat (List.length (first :: rest))).
  - rewrite index_zero, index_minus_one. cbn [bind].
    exists (Py.slice (first :: rest) 1 (slide_count - 1)).
    split; [reflexivity | now apply slice_from_one_incl].
  - exists (removelast rest). split.
    + now rewrite <- (app_removelast_last first Hne).
    + intros y. apply in_removelast.
Qed.

Section Ends.
Context `{PyStr}.

Lemma ai_closing_next_steps ai_content audience closing :
  ai_closing ai_content audience = Ok closing ->
  exists lines, closing = next_steps lines.
Proof.
  unfold ai_closing. intros Hc. bind_inv Hc as present Hpresent.
  destruct present.
  - bind_inv Hc as c Hget. destruct c; injection Hc as <-; eauto.
  - injection Hc as <-. eauto.
Qed.

Lemma point_slide_title audience point_data s :
  point_slide audience point_data = Ok s -> is_text (title s).
Proof.
  unfold point_slide. intros Hs.
  bind_inv Hs as main_point Hmain. bind_inv Hs as slide_title Htitle.
  bind_inv Hs as has_sub Hsub. bind_inv Hs as extra Hextra.
  bind_inv Hs as n Hn. injection Hs as <-. cbn [title].
  destruct (Py.truthy main_point).
  - destruct main_point; try discriminate.
    bind_inv Htitle as w Hw. injection Htitle as <-. now exists w.
  - injection Htitle as <-. now eexists.
Qed.

Lemma group_slide_text group s :
  group_slide group = Ok s -> text_slide s.
Proof.
  unfold group_slide. intros Hs. bind_inv Hs as b Hb. injection Hs as <-.
  repeat split; cbn [title content notes]; try (now eexists).
  apply Forall_map, Forall_forall. intros p _. now exists p.
Qed.

Lemma focus_slide_text audience point : text_slide (focus_slide audience point).
Proof.
  repeat split; cbn [focus_slide title content notes]; try (now eexists).
  repeat constructor. now exists point.
Qed.

Lemma generic_closing_text audience :
  text_slide (next_steps (generic_closing audience)).
Proof.
  repeat split; cbn [next_steps title content notes]; try (now eexists).
  repeat constructor; now eexists.
Qed.

Lemma fallback_slides_text points audience slide_count rest :
  fallback_slides points audience slide_count = Ok rest ->
  Forall text_slide rest.
Proof.
  unfold fallback_slides. intros Hr. bind_inv Hr as body Hbody.
  injection Hr as <-. apply Forall_app. split.
  - destruct (Z.of_nat (List.length points) <=? slide_count - 2).
    + injection Hbody as <-. apply Forall_map, Forall_forall.
      intros p _. apply focus_slide_text.
    + bind_inv Hbody as q Hq. eapply for_each_Forall; [|exact Hbody].
      intros i s. apply group_slide_text.
  - constructor; [apply generic_closing_text | constructor].
Qed.

(** The slides after the first, as assembled: every title is a [str] and
    the last slide is a ['Next Steps'] slide. *)
Lemma assemble_slides_ends ai_content points audience purpose slide_count
    slides :
  assemble_slides ai_content points audience purpose slide_count = Ok slides ->
  exists first body lines,
    slides = first :: body ++ [next_steps lines] /\
    title_slide ai_content points audience purpose = Ok first /\
    Forall (fun s => is_text (title s)) body.
Proof.
  unfold assemble_slides. intros Hs. bind_inv Hs as first Hfirst.
  bind_inv Hs as use_ai Huse. bind_inv Hs as rest Hrest.
  injection Hs as <-. destruct use_ai.
  - unfold ai_slides in Hrest. bind_inv Hrest as pts Hpts.
    bind_inv Hrest as items Hitems. bind_inv Hrest as body Hbody.
    bind_inv Hrest as closing Hclosing. injection Hrest as <-.
    destruct (ai_closing_next_steps _ _ _ Hclosing) as [lines ->].
    exists first, body, lines. repeat split; try assumption.
    eapply for_each_Forall; [|exact Hbody]. apply point_slide_title.
  - pose proof (fallback_slides_text _ _ _ _ Hrest) as Htext.
    destruct (fallback_slides_shape _ _ _ _ Hrest) as (body & -> & _).
    exists first, body, (generic_closing audience).
    repeat split; try assumption.
    apply Forall_app in Htext as [Hbody _].
    eapply Forall_impl; [|exact Hbody]. now intros s (Ht & _).
Qed.

Context `{Collaborators}.

Lemma enhance_no_bullets bullet_points audience purpose slide_count
    ai_enabled :
  extract_points bullet_points = [] ->
  enhance_content_with_ai bullet_points audience purpose slide_count
    ai_enabled = Ok [].
Proof. intros Hp. unfold enhance_content_with_ai. now rewrite Hp. Qed.

(** X7: for any slide count at all, a returned deck is empty exactly when
    the text has no bullet; with a bullet it starts with the title slide,
    which has a subtitle and no content, and ends with a ['Next Steps']
    slide, so it has two slides at least. *)
Theorem deck_has_both_ends bullet_points audience purpose slide_count
    ai_enabled deck :
  enhance_content_with_ai bullet_points audience purpose slide_count
    ai_enabled = Ok deck ->
  (deck = [] <-> extract_points bullet_points = []) /\
  (extract_points bullet_points <> [] ->
   exists first middle lines,
     deck = first :: middle ++ [next_steps lines] /\
     content first = [] /\ subtitle first <> None).
Proof.
  intros Hdeck.
  destruct (extract_points bullet_points) as [|p ps] eqn:Hp.
  - rewrite (enhance_no_bullets _ _ _ _ _ Hp) in Hdeck. injection Hdeck as <-.
    split; [tauto | contradiction].
  - assert (Hne : extract_points bullet_points <> [])
      by (rewrite Hp; discriminate).
    destruct (enhance_inv _ _ _ _ _ _ Hne Hdeck)
      as (ai_content & assembled & Hai & Hasm & Hlim).
    destruct (assemble_slides_ends _ _ _ _ _ _ Hasm)
      as (first & body & lines & -> & Hfirst & _).
    destruct (limit_slides_any first (body ++ [next_steps lines]) slide_count)
      as (middle & Hlimit & _); [now destruct body|].
    rewrite Hlimit in Hlim. injection Hlim as <-. rewrite last_last.
    destruct (title_slide_shape _ _ _ _ _ Hfirst) as [Hcontent Hsub].
    split; [split; discriminate|]. intros _.
    exists first, middle, lines. repeat split; assumption.
Qed.

(** X8: in a returned deck every slide after the first has a [str] for its
    title (the renderer upper-cases it), whatever the AI content was. *)
Theorem later_titles_are_text bullet_points audience purpose slide_count
    ai_enabled deck :
  enhance_content_with_ai bullet_points audience purpose slide_count
    ai_enabled = Ok deck ->
  Forall (fun s => is_text (title s)) (tl deck).
Proof.
  intros Hdeck.
  destruct (extract_points bullet_points) as [|p ps] eqn:Hp.
  - rewrite (enhance_no_bullets _ _ _ _ _ Hp) in Hdeck.
    injection Hdeck as <-. constructor.
  - assert (Hne : extract_points bullet_points <> [])
      by (rewrite Hp; discriminate).
    destruct (enhance_inv _ _ _ _ _ _ Hne Hdeck)
      as (ai_content & assembled & Hai & Hasm & Hlim).
    destruct (assemble_slides_ends _ _ _ _ _ _ Hasm)
      as (first & body & lines & -> & _ & Hbody).
    assert (Hrest : Forall (fun s => is_text (title s))
                           (body ++ [next_steps lines])).
    { apply Forall_app. split; [exact Hbody|].
      repeat constructor. now eexists. }
    destruct (limit_slides_any first (body ++ [next_steps lines]) slide_count)
      as (middle & Hlimit & Hincl); [now destruct body|].
    rewrite Hlimit in Hlim. injection Hlim as <-. cbn [tl].
    rewrite last_last. apply Forall_app. split.
    + eapply incl_Forall; eassumption.
    + repeat constructor. now eexists.
Qed.

Lemma title_slide_text ai_content points audience purpose first :
  Py.truthy ai_content = false ->
  title_slide ai_content points audience purpose = Ok first ->
  text_slide first.
Proof.
  unfold title_slide. intros ->. cbn [bind]. intros [= <-].
  repeat split; cbn [title content notes]; try (now eexists). constructor.
Qed.

(** X9: with AI disabled every slide of a returned deck is text all over:
    its title, each of its content lines and its notes are [str]. *)
Theorem deck_without_ai_is_text bullet_points audience purpose slide_count
    deck :
  enhance_content_with_ai bullet_points audience purpose slide_count false
  = Ok deck ->
  Forall text_slide deck.
Proof.
  rewrite enhance_without_ai.
  destruct (extract_points bullet_points) as [|p ps];
    [intros [= <-]; constructor|].
  intros Hdeck. bind_inv Hdeck as slides Hslides.
  unfold assemble_slides in Hslides.
  bind_inv Hslides as first Hfirst. bind_inv Hslides as use_ai Huse.
  cbn [has_points_list Py.truthy] in Huse. injection Huse as <-.
  bind_inv Hslides as rest Hrest. injection Hslides as <-.
  pose proof (title_slide_text JNull _ _ _ _ eq_refl Hfirst) as Hfirst_text.
  pose proof (fallback_slides_text _ _ _ _ Hrest) as Htext.
  destruct (fallback_slides_shape _ _ _ _ Hrest) as (body & -> & _).
  destruct (limit_slides_any first
              (body ++ [next_steps (generic_closing audience)]) slide_count)
    as (middle & Hlimit & Hincl); [now destruct body|].
  rewrite Hlimit in Hdeck. injection Hdeck as <-. rewrite last_last.
  constructor; [exact Hfirst_text|].
  apply Forall_app. split.
  - eapply incl_Forall; eassumption.
  - constructor; [apply generic_closing_text | constructor].
Qed.

End Ends.

(* ------------------------------------------------------------------ *)
(** ** The fallback branch: which bullets the deck shows *)

Lemma firstn_seq_prefix (b m : nat) :
  (b <= m)%nat -> firstn b (seq 0 m) = seq 0 b.
Proof.
  intros Hb. replace m with (b + (m - b))%nat by lia.
  rewrite seq_app, firstn_app, length_seq, Nat.sub_diag. simpl firstn.
  rewrite app_nil_r. apply firstn_all2. rewrite length_seq. lia.
Qed.

Section Shown.
Context `{PyStr} `{Collaborators}.

Lemma enhance_with_bullets bullet_points audience purpose slide_count
    ai_enabled :
  extract_points bullet_points <> [] ->
  enhance_content_with_ai bullet_points audience purpose slide_count
    ai_enabled
  = (ai_content <- fetch_ai_content bullet_points audience purpose
                     ai_enabled ;;
     slides <- assemble_slides ai_content (extract_points bullet_points)
                 audience purpose slide_count ;;
     limit_slides slides slide_count).
Proof.
  intros Hne. unfold enhance_content_with_ai.
  now destruct (extract_points bullet_points).
Qed.

(** X10: with no ['points'] list to use and no more bullets than
    [slide_count - 2], the deck is the title slide, one ['Focus on'] slide
    per bullet in the order of the bullets, each showing its bullet alone,
    and the closing slide: no bullet is left out and no slide is added to
    reach [slide_count]. *)
Theorem small_fallback_one_slide_per_bullet bullet_points audience purpose
    slide_count ai_enabled (ai_content : json) (first : Slide) :
  extract_points bullet_points <> [] ->
  Z.of_nat (List.length (extract_points bullet_points)) <= slide_count - 2 ->
  fetch_ai_content bullet_points audience purpose ai_enabled
  = Ok ai_content ->
  has_points_list ai_content = Ok false ->
  title_slide ai_content (extract_points bullet_points) audience purpose
  = Ok first ->
  exists middle,
    enhance_content_with_ai bullet_points audience purpose slide_count
      ai_enabled
    = Ok (first :: middle ++ [next_steps (generic_closing audience)]) /\
    map content middle
    = map (fun p => [JStr p]) (extract_points bullet_points) /\
    Forall (fun s => exists t, title s = JStr ("Focus on " +:+ t)) middle.
Proof.
  intros Hne Hfew Hai Hno Hfirst.
  exists (map (focus_slide audience) (extract_points bullet_points)).
  split; [|split].
  - rewrite (enhance_with_bullets _ _ _ _ _ Hne), Hai. cbn [bind].
    unfold assemble_slides.
    rewrite Hfirst. cbn [bind]. rewrite Hno. cbn [bind].
    unfold fallback_slides. cbv zeta.
    replace (Z.of_nat (List.length (extract_points bullet_points))
             <=? slide_count - 2) with true
      by (symmetry; apply Z.leb_le; exact Hfew).
    cbn [bind]. apply limit_slides_short.
    cbn [List.length]. rewrite length_app, length_map.
    cbn [List.length]. lia.
  - rewrite map_map. reflexivity.
  - apply Forall_map, Forall_forall. intros p _. cbn [focus_slide title].
    now eexists.
Qed.

(** X11: with no ['points'] list to use and more bullets than
    [slide_count - 2], the deck has [slide_count - 2] slides between the
    title and the closing slide, each showing [len // (slide_count - 2)]
    bullets, and together they show the first
    [(slide_count - 2) * (len // (slide_count - 2))] bullets in order; as many
    bullets as the remainder of that division are in no slide. *)
Theorem grouped_fallback_shows_a_prefix bullet_points audience purpose
    slide_count ai_enabled (ai_content : json) (first : Slide) :
  3 <= slide_count ->
  slide_count - 2 < Z.of_nat (List.length (extract_points bullet_points)) ->
  fetch_ai_content bullet_points audience purpose ai_enabled
  = Ok ai_content ->
  has_points_list ai_content = Ok false ->
  title_slide ai_content (extract_points bullet_points) audience purpose
  = Ok first ->
  let points := extract_points bullet_points in
  let size := Z.of_nat (List.length points) / (slide_count - 2) in
  exists middle,
    enhance_content_with_ai bullet_points audience purpose slide_count
      ai_enabled
    = Ok (first :: middle ++ [next_steps (generic_closing audience)]) /\
    Z.of_nat (List.length middle) = slide_count - 2 /\
    Forall (fun s => Z.of_nat (List.length (content s)) = size) middle /\
    concat (map content middle)
    = map JStr (firstn (Z.to_nat ((slide_count - 2) * size)) points) /\
    Z.of_nat (List.length (concat (map content middle)))
    = Z.of_nat (List.length points)
      - Z.of_nat (List.length points) mod (slide_count - 2).
Proof.
  intros Hsc Hmore Hai Hno Hfirst points size.
  assert (Hbudget : 1 <= slide_count - 2) by lia.
  pose proof (group_count_budget _ _ Hbudget Hmore) as Hcount.
  pose proof (per_slide_pos _ _ Hbudget Hmore) as Hsize.
  pose proof (per_slide_budget points slide_count Hbudget) as Hfit.
  destruct (group_bounds _ _ Hbudget Hmore) as [Hlow Hhigh].
  pose proof (fallback_slides_grouped _ audience _ Hbudget Hmore) as Hfall.
  fold points in Hcount, Hsize, Hlow, Hhigh, Hfall, Hmore.
  fold size in Hcount, Hsize, Hfit, Hlow, Hhigh, Hfall.
  set (m := Z.to_nat ((Z.of_nat (List.length points) + size - 1) / size)) in *.
  set (k := Z.to_nat size) in *.
  set (b := Z.to_nat (slide_count - 2)).
  assert (Hbm : (b <= m)%nat) by (subst b; lia).
  assert (Hbk : (b * k <= List.length points)%nat) by (subst b k; nia).
  exists (map group_slide_of (map (chunk points k) (seq 0 b))).
  assert (Hshown : forall groups,
             map content (map group_slide_of groups)
             = map (map JStr) groups)
    by (intros groups; rewrite map_map; now apply map_ext).
  assert (Hprefix : concat (map content
                              (map group_slide_of
                                 (map (chunk points k) (seq 0 b))))
                    = map JStr (firstn (Z.to_nat ((slide_count - 2) * size))
                                       points)).
  { rewrite Hshown, <- concat_map.
    rewrite (concat_chunks_prefix points k m ltac:(subst k; lia) Hlow Hhigh).
    do 2 f_equal. subst b k. nia. }
  split; [|split; [|split; [|split]]].
  - assert (Hne : extract_points bullet_points <> []).
    { intros Hnil. fold points in Hnil. rewrite Hnil in Hmore.
      simpl in Hmore. lia. }
    rewrite (enhance_with_bullets _ _ _ _ _ Hne), Hai. cbn [bind].
    unfold assemble_slides.
    rewrite Hfirst. cbn [bind]. rewrite Hno. cbn [bind].
    fold points. rewrite Hfall. cbn [bind].
    rewrite limit_slides_framed by lia.
    fold b. now rewrite !firstn_map, firstn_seq_prefix.
  - rewrite !length_map, length_seq. subst b. lia.
  - apply Forall_map, Forall_map, Forall_forall. intros j Hj.
    apply in_seq in Hj. cbn [group_slide_of content].
    rewrite length_map, chunk_length. subst k. nia.
  - exact Hprefix.
  - rewrite Hprefix, length_map, length_firstn.
    pose proof (Z.div_mod (Z.of_nat (List.length points)) (slide_count - 2)
                  ltac:(lia)) as Hdiv.
    fold size in Hdiv. subst b k. nia.
Qed.

(* ------------------------------------------------------------------ *)
(** ** The model is not there *)

Lemma fetch_ai_content_unavailable bullet_points audience purpose :
  ai_unavailable bullet_points audience purpose ->
  fetch_ai_content bullet_points audience purpose true = Ok JNull.
Proof.
  unfold ai_unavailable, fetch_ai_content.
  destruct (generate_content_with_gemini bullet_points audience purpose)
    as [ai_response|]; [|reflexivity].
  intros [-> | [Hnone | (span & e & Hspan & Hdec)]]; [reflexivity | |].
  - destruct (Text.nonempty ai_response); [|reflexivity].
    unfold parse_ai_response. now rewrite Hnone.
  - destruct (Text.nonempty ai_response); [|reflexivity].
    now rewrite (parse_ai_response_span _ _ Hspan), Hdec.
Qed.

(** X12: when the model gives nothing to use (the call fails, or the
    answer is empty, has no brace span or does not decode), the run with AI
    enabled returns what the run with AI disabled returns. *)
Theorem ai_unavailable_degrades bullet_points audience purpose slide_count :
  ai_unavailable bullet_points audience purpose ->
  enhance_content_with_ai bullet_points audience purpose slide_count true
  = enhance_content_with_ai bullet_points audience purpose slide_count false.
Proof.
  intros Hnone. rewrite enhance_without_ai. unfold enhance_content_with_ai.
  destruct (extract_points bullet_points) as [|p ps]; [reflexivity|].
  now rewrite (fetch_ai_content_unavailable _ _ _ Hnone).
Qed.

(** X13: with two slides asked for, any bullet at all and AI disabled, the
    group size is a division by zero: [enhance_content_with_ai] raises
    [ZeroDivisionError], and [generate_presentation] reports it with no
    file and without a call to the renderer. *)
Theorem two_slides_divide_by_zero bullet_points audience purpose template
    font_color_hex :
  extract_points bullet_points <> [] ->
  enhance_content_with_ai bullet_points audience purpose 2 false
  = Raise ZeroDivisionError /\
  generate_presentation bullet_points audience purpose template 2 false
    font_color_hex
  = {| shown := "Error generating presentation: "
                +:+ str_exn ZeroDivisionError;
       file_path := None;
       render_calls := [] |}.
Proof.
  intros Hne.
  assert (Hraise : enhance_content_with_ai bullet_points audience purpose 2
                     false = Raise ZeroDivisionError).
  { rewrite enhance_without_ai.
    destruct (extract_points bullet_points) as [|p ps]; [contradiction|].
    unfold assemble_slides, title_slide, has_points_list, fallback_slides.
    cbn [Py.truthy bind]. cbv zeta.
    replace (Z.of_nat (List.length (p :: ps)) <=? 2 - 2) with false
      by (symmetry; apply Z.leb_gt; simpl List.length; lia).
    reflexivity. }
  split; [exact Hraise|].
  unfold generate_presentation. now rewrite Hraise.
Qed.

End Shown.

(* ------------------------------------------------------------------ *)
(** ** AI points that are, or are not, of the expected shape *)

Lemma split_head sep (s : string) :
  exists w ws rest,
    Text.split sep s = w :: ws /\
    Text.char_in sep w = false /\
    s = w +:+ rest /\
    (rest = EmptyString \/ exists r, rest = String sep r).
Proof.
  induction s as [|c s (w & ws & rest & Hsplit & Hw & Hs & Hrest)];
    cbn [Text.split].
  - exists EmptyString, [], EmptyString. repeat split. now left.
  - destruct (Ascii.eqb c sep) eqn:Hc.
    + apply Ascii.eqb_eq in Hc as ->.
      exists EmptyString, (Text.split sep s), (String sep s).
      repeat split. right. now exists s.
    + rewrite Hsplit. exists (String c w), ws, rest.
      cbn [Text.char_in String.append].
      rewrite Ascii.eqb_sym, Hc, Hw, <- Hs. repeat split. exact Hrest.
Qed.

Section Points.
Context `{PyStr}.

(** The title of the slide of one point, which never fails for a value
    [usable_main_point] allows and raises [AttributeError] for any other. *)
Lemma point_title_cases (main_point : json) :
  let run :=
    if Py.truthy main_point then
      match main_point with
      | JStr s => w <- Py.index (Text.split "." s) 0 ;; Ok (JStr w)
      | _ => Raise AttributeError
      end
    else Ok (JStr "Key Point") in
  (usable_main_point (Some main_point) /\ exists t, run = Ok t) \/
  (~ usable_main_point (Some main_point) /\ run = Raise AttributeError).
Proof.
  cbv zeta. destruct (Py.truthy main_point) eqn:Htruthy.
  - destruct main_point; cbn [usable_main_point];
      try (right; split; [now rewrite Htruthy | reflexivity]).
    left. split; [exact I|].
    destruct (split_head "." s) as (w & ws & _ & -> & _).
    rewrite index_zero. cbn [bind]. eauto.
  - left. split; [|eauto]. now destruct main_point.
Qed.

(** The lines [extend] adds, likewise, with [TypeError]. *)
Lemma sub_points_cases (d : Py.dict) :
  let run :=
    has_sub <- Py.contains "sub_points" (JObj d) ;;
    if has_sub then
      sub <- Py.getitem (JObj d) "sub_points" ;;
      if Py.truthy sub then Py.iterate sub else Ok []
    else Ok [] in
  (usable_sub_points (Py.lookup "sub_points" d) /\ exists l, run = Ok l) \/
  (~ usable_sub_points (Py.lookup "sub_points" d) /\ run = Raise TypeError).
Proof.
  cbv zeta. unfold Py.contains, Py.getitem.
  destruct (Py.lookup "sub_points" d) as [sub|]; cbn [bind];
    [|left; split; [exact I | eauto]].
  destruct (Py.truthy sub) eqn:Htruthy.
  - destruct sub; cbn [usable_sub_points Py.iterate];
      try (right; split; [now rewrite Htruthy | reflexivity]);
      left; split; try exact I; eauto.
  - left. split; [|eauto]. now destruct sub.
Qed.

Lemma point_slide_cases audience (point_data : json) :
  (well_formed_point point_data /\
   exists s, point_slide audience point_data = Ok s) \/
  (~ well_formed_point point_data /\
   (point_slide audience point_data = Raise AttributeError \/
    point_slide audience point_data = Raise TypeError)).
Proof.
  destruct point_data as [| | | | |l|d];
    try (right; split; [intros []|left; reflexivity]).
  unfold point_slide, well_formed_point. cbn [Py.get bind].
  set (main_point := match Py.lookup "main_point" d with
                     | Some x => x
                     | None => JStr ""
                     end).
  assert (Hmain : usable_main_point (Py.lookup "main_point" d)
                  <-> usable_main_point (Some main_point)).
  { subst main_point. now destruct (Py.lookup "main_point" d). }
  destruct (point_title_cases main_point) as [[Hok [t Ht]]|[Hbad Hraise]];
    cbv zeta in *.
  - rewrite Ht. cbn [bind].
    destruct (sub_points_cases d) as [[Hsub [l Hl]]|[Hsub Hraise]];
      cbv zeta in *.
    + left. split; [split; [now apply Hmain | exact Hsub]|].
      apply bind_ok_inv in Hl as (has_sub & Hhas & Hl).
      rewrite Hhas. cbn [bind]. rewrite Hl. cbn [bind]. eauto.
    + right. split; [now intros [_ Hs]|]. right.
      destruct (Py.contains "sub_points" (JObj d)) as [has_sub|e] eqn:Hhas;
        cbn [bind] in *; [|now injection Hraise as ->].
      now rewrite Hraise.
  - right. split; [intros [Hm _]; now apply Hbad, Hmain|].
    left. now rewrite Hraise.
Qed.

(** X14: one point of the AI content gives a slide exactly when it is an
    object whose ['main_point'] is absent, a [str] or false, and whose
    ['sub_points'] are absent, a list, a [str], an object or false; any other
    point raises [AttributeError] or [TypeError]. *)
Theorem point_slide_ok_iff audience (point_data : json) :
  ((exists s, point_slide audience point_data = Ok s)
   <-> well_formed_point point_data) /\
  (forall e, point_slide audience point_data = Raise e ->
             e = AttributeError \/ e = TypeError).
Proof.
  destruct (point_slide_cases audience point_data)
    as [[Hwf [s Hs]]|[Hbad [Hraise|Hraise]]]; rewrite ?Hs, ?Hraise.
  - split; [split; eauto | discriminate].
  - split; [split; [intros [s Hs]; discriminate | contradiction]|].
    intros e [= <-]. now left.
  - split; [split; [intros [s Hs]; discriminate | contradiction]|].
    intros e [= <-]. now right.
Qed.

(** X15: the title of a point's slide is the part of a non-empty
    ['main_point'] that comes before its first full stop, all of it when it
    has none, and the slide's first content line is the ['main_point']. *)
Theorem point_title_stops_at_full_stop audience (d : Py.dict)
    (main_point : string) (s : Slide) :
  Py.lookup "main_point" d = Some (JStr main_point) ->
  main_point <> EmptyString ->
  point_slide audience (JObj d) = Ok s ->
  exists t rest,
    title s = JStr t /\
    main_point = t +:+ rest /\
    Text.char_in "." t = false /\
    (rest = EmptyString \/ exists r, rest = String "." r) /\
    hd_error (content s) = Some (JStr main_point).
Proof.
  intros Hmain Hne. unfold point_slide. cbn [Py.get]. rewrite Hmain.
  cbn [bind Py.truthy].
  destruct main_point as [|c main_point]; [contradiction|].
  cbn [Text.nonempty].
  destruct (split_head "." (String c main_point))
    as (w & ws & rest & -> & Hw & Hs & Hrest).
  rewrite index_zero. cbn [bind]. intros Hrun.
  bind_inv Hrun as has_sub Hhas. bind_inv Hrun as extra Hextra.
  injection Hrun as <-.
  exists w, rest. repeat split; assumption.
Qed.

Lemma for_each_well_formed audience (items : list json) :
  Forall well_formed_point items ->
  exists body,
    for_each (point_slide audience) items = Ok body /\
    List.length body = List.length items.
Proof.
  induction 1 as [|v items Hv _ (body & Hbody & Hlen)].
  - now exists [].
  - destruct (point_slide_cases audience v) as [[_ [s Hs]]|[Hbad _]];
      [|contradiction].
    exists (s :: body). cbn [for_each]. rewrite Hs. cbn [bind].
    rewrite Hbody. cbn [bind List.length]. now rewrite Hlen.
Qed.

Lemma for_each_malformed audience (items : list json) :
  Exists (fun v => ~ well_formed_point v) items ->
  exists e, (e = AttributeError \/ e = TypeError) /\
            for_each (point_slide audience) items = Raise e.
Proof.
  induction items as [|v items IH]; intros Hbad; [inversion Hbad|].
  cbn [for_each].
  destruct (point_slide_cases audience v)
    as [[Hwf [s Hs]]|[_ [Hraise|Hraise]]].
  - rewrite Hs. cbn [bind].
    destruct IH as (e & He & Hrun);
      [inversion Hbad; subst; [contradiction | assumption]|].
    exists e. split; [exact He|]. now rewrite Hrun.
  - exists AttributeError. split; [now left | now rewrite Hraise].
  - exists TypeError. split; [now right | now rewrite Hraise].
Qed.

Context `{Collaborators}.

(** X16: when every point of the AI content is of the expected shape the
    deck is returned: the title slide, one slide per point up to
    [slide_count - 2] of them, and the closing slide. *)
Theorem well_formed_points_give_a_deck bullet_points audience purpose
    slide_count ai_enabled (d : Py.dict) (items : list json) :
  2 <= slide_count ->
  extract_points bullet_points <> [] ->
  fetch_ai_content bullet_points audience purpose ai_enabled = Ok (JObj d) ->
  Py.lookup "points" d = Some (JList items) ->
  Forall well_formed_point items ->
  exists deck,
    enhance_content_with_ai bullet_points audience purpose slide_count
      ai_enabled = Ok deck /\
    Z.of_nat (List.length deck)
    = Z.min (Z.of_nat (List.length items)) (slide_count - 2) + 2.
Proof.
  intros Hsc Hne Hai Hpoints Hwf.
  destruct (for_each_well_formed audience items Hwf) as (body & Hbody & Hlen).
  destruct (title_slide_of_dict d (extract_points bullet_points) audience
              purpose) as [first Hfirst].
  destruct (ai_closing_of_dict d audience) as (lines & Hclosing & _).
  exists (first :: firstn (Z.to_nat (slide_count - 2)) body
            ++ [next_steps lines]).
  split.
  - rewrite (enhance_with_bullets _ _ _ _ _ Hne), Hai. cbn [bind].
    unfold assemble_slides. rewrite Hfirst. cbn [bind].
    rewrite (has_points_list_of_dict d items Hpoints). cbn [bind].
    unfold ai_slides. unfold Py.getitem at 1. rewrite Hpoints.
    cbn [bind Py.iterate]. rewrite Hbody. cbn [bind].
    rewrite Hclosing. cbn [bind]. now apply limit_slides_framed.
  - cbn [List.length]. rewrite length_app, length_firstn, Hlen.
    cbn [List.length]. lia.
Qed.

(** X17: when some point of the AI content is not of the expected shape,
    there is no fall back to the bullets: [enhance_content_with_ai] raises
    [AttributeError] or [TypeError], and [generate_presentation] reports it
    with no file and without a call to the renderer. *)
Theorem malformed_point_aborts bullet_points audience purpose template
    slide_count use_ai font_color_hex (d : Py.dict) (items : list json) :
  extract_points bullet_points <> [] ->
  fetch_ai_content bullet_points audience purpose use_ai = Ok (JObj d) ->
  Py.lookup "points" d = Some (JList items) ->
  Exists (fun v => ~ well_formed_point v) items ->
  exists e,
    (e = AttributeError \/ e = TypeError) /\
    enhance_content_with_ai bullet_points audience purpose slide_count use_ai
    = Raise e /\
    generate_presentation bullet_points audience purpose template slide_count
      use_ai font_color_hex
    = {| shown := "Error generating presentation: " +:+ str_exn e;
         file_path := None;
         render_calls := [] |}.
Proof.
  intros Hne Hai Hpoints Hbad.
  destruct (for_each_malformed audience items Hbad) as (e & He & Hrun).
  destruct (title_slide_of_dict d (extract_points bullet_points) audience
              purpose) as [first Hfirst].
  assert (Hraise : enhance_content_with_ai bullet_points audience purpose
                     slide_count use_ai = Raise e).
  { rewrite (enhance_with_bullets _ _ _ _ _ Hne), Hai. cbn [bind].
    unfold assemble_slides. rewrite Hfirst. cbn [bind].
    rewrite (has_points_list_of_dict d items Hpoints). cbn [bind].
    unfold ai_slides. unfold Py.getitem at 1. rewrite Hpoints.
    cbn [bind Py.iterate]. now rewrite Hrun. }
  exists e. split; [exact He|]. split; [exact Hraise|].
  unfold generate_presentation. now rewrite Hraise.
Qed.

(** X18: the title slide of a returned deck carries the value under
    ['title'] of the AI content when there is one, whatever its type, and
    ['UCL '] with the title-cased first three words, or fewer, of the first
    bullet otherwise; its subtitle is made of the audience and the purpose
    alone. *)
Theorem deck_title bullet_points audience purpose slide_count ai_enabled
    (ai_content : json) (p : string) (ps : list string) (deck : list Slide) :
  extract_points bullet_points = p :: ps ->
  fetch_ai_content bullet_points audience purpose ai_enabled
  = Ok ai_content ->
  enhance_content_with_ai bullet_points audience purpose slide_count
    ai_enabled = Ok deck ->
  exists first rest,
    deck = first :: rest /\
    subtitle first
    = Some ("For " +:+ str_title audience +:+ ": "
            +:+ str_capitalize purpose) /\
    (forall d t, ai_content = JObj d -> Py.lookup "title" d = Some t ->
                 title first = t) /\
    (Py.truthy ai_content = false \/
     (exists d, ai_content = JObj d /\ Py.lookup "title" d = None) ->
     title first
     = JStr ("UCL " +:+ str_title
               (Text.join " " (firstn 3 (Text.split_ws p))))).
Proof.
  intros Hp Hai Hdeck.
  assert (Hne : extract_points bullet_points <> [])
    by (rewrite Hp; discriminate).
  rewrite (enhance_with_bullets _ _ _ _ _ Hne), Hai in Hdeck.
  cbn [bind] in Hdeck. bind_inv Hdeck as slides Hslides.
  destruct (assemble_slides_ends _ _ _ _ _ _ Hslides)
    as (first & body & lines & -> & Hfirst & _).
  destruct (limit_slides_any first (body ++ [next_steps lines]) slide_count)
    as (middle & Hlimit & _); [now destruct body|].
  rewrite Hlimit in Hdeck. injection Hdeck as <-.
  exists first, (middle ++ [List.last (body ++ [next_steps lines]) first]).
  split; [reflexivity|].
  rewrite Hp in Hfirst. unfold title_slide in Hfirst.
  bind_inv Hfirst as has_title Hhas. bind_inv Hfirst as t Ht.
  injection Hfirst as <-. cbn [subtitle title].
  split; [reflexivity|]. split.
  - intros d t' -> Htitle. destruct d as [|kv d]; [discriminate|].
    cbn [Py.truthy] in Hhas. unfold Py.contains in Hhas.
    rewrite Htitle in Hhas. injection Hhas as <-.
    unfold Py.getitem in Ht. rewrite Htitle in Ht. now injection Ht.
  - rewrite slice_from_zero in Ht by lia. change (Z.to_nat 3) with 3%nat in Ht.
    intros [Hfalse|(d & -> & Hnone)].
    + rewrite Hfalse in Hhas. injection Hhas as <-. now injection Ht.
    + destruct d as [|kv d].
      * cbn [Py.truthy] in Hhas. injection Hhas as <-. now injection Ht.
      * cbn [Py.truthy] in Hhas. unfold Py.contains in Hhas.
        rewrite Hnone in Hhas. injection Hhas as <-. now injection Ht.
Qed.

End Points.

(* ------------------------------------------------------------------ *)
(** ** [generate_presentation]: what a run returns *)

Section Outcome.
Context `{PyStr}.

(** X19: a run returns a file path exactly when every step went through:
    the deck is returned and is not empty, the preview is built, the font
    colour converts and the renderer succeeds; the run then shows the
    preview and has called the renderer once, with that deck, the template
    name as given and the converted colour. *)
Theorem file_only_after_every_step `{Collaborators}
    bullet_points audience purpose template slide_count use_ai font_color_hex
    (path : string) :
  let run := generate_presentation bullet_points audience purpose template
               slide_count use_ai font_color_hex in
  file_path run = Some path <->
  exists slides preview colour,
    slides <> [] /\
    enhance_content_with_ai bullet_points audience purpose slide_count use_ai
    = Ok slides /\
    create_preview_html slides = Ok preview /\
    hex_to_rgb font_color_hex = Ok colour /\
    create_presentation slides template colour = Ok path /\
    shown run = preview /\
    render_calls run = [(slides, template, colour)].
Proof.
  cbv zeta. unfold generate_presentation. split.
  - destruct (enhance_content_with_ai bullet_points audience purpose
                slide_count use_ai) as [[|s slides]|e]; try discriminate.
    destruct (create_preview_html (s :: slides)) as [preview|e] eqn:Hpre;
      try discriminate.
    destruct (hex_to_rgb font_color_hex) as [colour|e] eqn:Hcol;
      try discriminate.
    destruct (create_presentation (s :: slides) template colour)
      as [p|e] eqn:Hren; try discriminate.
    cbn [file_path shown render_calls]. intros [= ->].
    exists (s :: slides), preview, colour.
    repeat split; try assumption; try reflexivity. discriminate.
  - intros (slides & preview & colour & Hne & -> & Hpre & Hcol & Hren & _).
    destruct slides as [|s slides]; [contradiction|].
    now rewrite Hpre, Hcol, Hren.
Qed.

(** X20: a run that returns no file path shows a text that starts with
    ['Error']. *)
Theorem no_file_shows_an_error `{Collaborators}
    bullet_points audience purpose template slide_count use_ai
    font_color_hex :
  let run := generate_presentation bullet_points audience purpose template
               slide_count use_ai font_color_hex in
  file_path run = None -> String.prefix "Error" (shown run) = true.
Proof.
  cbv zeta. unfold generate_presentation.
  destruct (enhance_content_with_ai bullet_points audience purpose
              slide_count use_ai) as [[|s slides]|e]; try reflexivity.
  destruct (create_preview_html (s :: slides)) as [preview|e];
    try reflexivity.
  destruct (hex_to_rgb font_color_hex) as [colour|e]; try reflexivity.
  destruct (create_presentation (s :: slides) template colour) as [p|e];
    [discriminate | reflexivity].
Qed.

(** X21: with the colour conversion of the source, a font colour of fewer
    than five characters after its hash signs stops the run once the deck
    and the preview are there: it reports the [ValueError], returns no file
    and does not call the renderer. *)
Theorem short_font_colour_stops_the_run (run : Collaborators)
    bullet_points audience purpose template slide_count use_ai font_color_hex
    (slides : list Slide) (preview : string) :
  slides <> [] ->
  @enhance_content_with_ai _ run bullet_points audience purpose slide_count
    use_ai = Ok slides ->
  @create_preview_html run slides = Ok preview ->
  (String.length (Text.lstrip "#" font_color_hex) < 5)%nat ->
  @generate_presentation _ (with_hex_to_rgb run) bullet_points audience
    purpose template slide_count use_ai font_color_hex
  = {| shown := "Error generating presentation: "
                +:+ @str_exn run ValueError;
       file_path := None;
       render_calls := [] |}.
Proof.
  intros Hne Hdeck Hpre Hlen. unfold generate_presentation.
  change (@enhance_content_with_ai _ (with_hex_to_rgb run) bullet_points
            audience purpose slide_count use_ai)
    with (@enhance_content_with_ai _ run bullet_points audience purpose
            slide_count use_ai).
  rewrite Hdeck. destruct slides as [|s slides]; [contradiction|].
  change (@create_preview_html (with_hex_to_rgb run))
    with (@create_preview_html run). rewrite Hpre.
  change (@hex_to_rgb (with_hex_to_rgb run)) with Colour.hex_to_rgb.
  destruct (Colour.hex_to_rgb font_color_hex) as [c|e] eqn:Hcol.
  - now destruct (hex_to_rgb_short_not_ok font_color_hex c Hlen).
  - now rewrite (hex_to_rgb_raises_value_error _ _ Hcol).
Qed.

(** X22: with the colour conversion of the source, a font colour written
    as the palette display writes a colour reaches the renderer as that
    colour: the renderer is called once with the deck, the template name
    and the three components, and its file is what the run returns. *)
Theorem palette_colour_reaches_the_renderer (run : Collaborators)
    bullet_points audience purpose template slide_count use_ai
    (slides : list Slide) (preview path : string) (r g b : Z) :
  0 <= r <= 255 -> 0 <= g <= 255 -> 0 <= b <= 255 ->
  slides <> [] ->
  @enhance_content_with_ai _ run bullet_points audience purpose slide_count
    use_ai = Ok slides ->
  @create_preview_html run slides = Ok preview ->
  @create_presentation run slides template (r, g, b) = Ok path ->
  @generate_presentation _ (with_hex_to_rgb run) bullet_points audience
    purpose template slide_count use_ai (Colour.palette_hex (r, g, b))
  = {| shown := preview;
       file_path := Some path;
       render_calls := [(slides, template, (r, g, b))] |}.
Proof.
  intros Hr Hg Hb Hne Hdeck Hpre Hren. unfold generate_presentation.
  change (@enhance_content_with_ai _ (with_hex_to_rgb run) bullet_points
            audience purpose slide_count use_ai)
    with (@enhance_content_with_ai _ run bullet_points audience purpose
            slide_count use_ai).
  rewrite Hdeck. destruct slides as [|s slides]; [contradiction|].
  change (@create_preview_html (with_hex_to_rgb run))
    with (@create_preview_html run). rewrite Hpre.
  change (@hex_to_rgb (with_hex_to_rgb run)) with Colour.hex_to_rgb.
  change (@create_presentation (with_hex_to_rgb run))
    with (@create_presentation run).
  assert (Hcol : Colour.hex_to_rgb (Colour.palette_hex (r, g, b))
                 = Ok (r, g, b)).
  { unfold Colour.palette_hex.
    destruct (format_02x_byte r Hr) as (r1 & r2 & -> & Hr1 & Hrv).
    destruct (format_02x_byte g Hg) as (g1 & g2 & -> & _ & Hgv).
    destruct (format_02x_byte b Hb) as (b1 & b2 & -> & _ & Hbv).
    rewrite (hex_to_rgb_of_pairs _ _ _ _ _ _ Hr1).
    now rewrite Hrv, Hgv, Hbv. }
  now rewrite Hcol, Hren.
Qed.

End Outcome.

(* ------------------------------------------------------------------ *)
(** ** What the parser returns, and what the extractor reads *)

Lemma char_in_lstrip_by c p (s : string) :
  Text.char_in c s = false -> Text.char_in c (Text.lstrip_by p s) = false.
Proof.
  induction s as [|d s IH]; [auto|]. cbn [Text.lstrip_by].
  destruct (p d); [|auto]. cbn [Text.char_in]. intros Hc.
  apply orb_false_iff in Hc as [_ Hs]. now apply IH.
Qed.

Lemma char_in_rstrip_by c p (s : string) :
  Text.char_in c s = false -> Text.char_in c (Text.rstrip_by p s) = false.
Proof.
  induction s as [|d s IH]; [auto|]. cbn [Text.rstrip_by Text.char_in].
  intros Hc. apply orb_false_iff in Hc as [Hd Hs]. specialize (IH Hs).
  destruct (Text.rstrip_by p s) as [|e kept].
  - destruct (p d); [reflexivity|]. cbn [Text.char_in]. now rewrite Hd.
  - cbn [Text.char_in] in *. now rewrite Hd, IH.
Qed.

Lemma last_avoids_lstrip_by q p (s : string) :
  last_avoids q s -> last_avoids q (Text.lstrip_by p s).
Proof.
  induction s as [|d s IH]; [auto|]. cbn [Text.lstrip_by].
  destruct (p d); [|auto]. intros Hlast. apply IH.
  destruct s; [exact I | exact Hlast].
Qed.

Lemma bullets_of_lines_clean (lines : list string) :
  Forall (fun line => Text.char_in "010" line = false) lines ->
  Forall clean_bullet (bullets_of_lines lines).
Proof.
  induction 1 as [|pt lines Hpt _ IH]; cbn [bullets_of_lines]; [constructor|].
  destruct (Text.nonempty (Text.strip pt)
            && Text.startswith "-" (Text.strip pt)); [|exact IH].
  constructor; [|exact IH].
  destruct (strip_trimmed pt) as (lead & trail & _ & _ & _ & _ & Hlast).
  unfold Text.lstrip. repeat split.
  - apply char_in_lstrip_by. unfold Text.strip.
    now apply char_in_rstrip_by, char_in_lstrip_by.
  - destruct (lstrip_by_split dash_or_space (Text.strip pt))
      as (run & _ & _ & Hhead). exact Hhead.
  - now apply last_avoids_lstrip_by.
Qed.

(** X23: every bullet the parser returns is clean: it holds no line feed,
    starts with neither a dash nor a space and ends with no white space.
    With the reading back of clean bullets, the parser's outputs are the
    lists of clean bullets, no more and no fewer. *)
Theorem bullets_are_clean (text : string) :
  Forall clean_bullet (extract_points text).
Proof.
  unfold extract_points. apply bullets_of_lines_clean, split_pieces.
Qed.

(** X24: the span the extractor finds is all it reads: searching the span
    again finds the span itself, and the extractor gives for the span alone
    what it gives for the whole text. *)
Theorem extraction_reads_the_span_only `{Collaborators} (text span : string) :
  re_search_braces text = Some span ->
  re_search_braces span = Some span /\
  parse_ai_response span = parse_ai_response text.
Proof.
  intros Hspan.
  destruct (re_search_braces_some text span Hspan)
    as (pre & mid & post & _ & Hshape & _).
  assert (Hagain : re_search_braces span = Some span).
  { rewrite Hshape.
    pose proof (re_search_braces_span EmptyString mid EmptyString
                  eq_refl eq_refl) as Hfind.
    cbn [String.append] in Hfind.
    replace (mid +:+ "}") with (mid +:+ String "}" EmptyString) by reflexivity.
    exact Hfind. }
  split; [exact Hagain|].
  now rewrite (parse_ai_response_span _ _ Hspan),
              (parse_ai_response_span _ _ Hagain).
Qed.

(* ------------------------------------------------------------------ *)
(** ** The AI branch does not read the bullets *)

Lemma slice_from_one {A} (x y : A) (rest : list A) (hi : Z) :
  Py.slice (x :: rest) 1 hi = Py.slice (y :: rest) 1 hi.
Proof.
  unfold Py.slice. cbn zeta. cbn [List.length].
  replace (1 <? 0) with false by reflexivity.
  rewrite (Z.min_l 1) by lia. reflexivity.
Qed.

Lemma limit_slides_tail (first first' : Slide) (rest : list Slide)
    (slide_count : Z) (deck deck' : list Slide) :
  rest <> [] ->
  limit_slides (first :: rest) slide_count = Ok deck ->
  limit_slides (first' :: rest) slide_count = Ok deck' ->
  tl deck = tl deck'.
Proof.
  intros Hne. unfold limit_slides. cbn [List.length].
  destruct (slide_count <? Z.of_nat (S (List.length rest))).
  - rewrite !index_zero, !index_minus_one. cbn [bind].
    intros [= <-] [= <-]. cbn [tl app].
    rewrite (slice_from_one first first').
    destruct rest as [|s rest]; [contradiction|].
    now rewrite !last_cons.
  - now intros [= <-] [= <-].
Qed.

Section Unread.
Context `{PyStr} `{Collaborators}.

(** X25: once the AI content has a list under ['points'], the bullets
    count for the title slide only: two runs on different bullet texts that
    get the same AI content, audience and slide count return decks that are
    the same after their first slide. *)
Theorem ai_deck_ignores_the_bullets bullet_points bullet_points' audience
    purpose purpose' slide_count ai_enabled (d : Py.dict) (items : list json)
    (deck deck' : list Slide) :
  fetch_ai_content bullet_points audience purpose ai_enabled = Ok (JObj d) ->
  fetch_ai_content bullet_points' audience purpose' ai_enabled
  = Ok (JObj d) ->
  Py.lookup "points" d = Some (JList items) ->
  extract_points bullet_points <> [] ->
  extract_points bullet_points' <> [] ->
  enhance_content_with_ai bullet_points audience purpose slide_count
    ai_enabled = Ok deck ->
  enhance_content_with_ai bullet_points' audience purpose' slide_count
    ai_enabled = Ok deck' ->
  tl deck = tl deck'.
Proof.
  intros Hai Hai' Hpoints Hne Hne' Hdeck Hdeck'.
  rewrite (enhance_with_bullets _ _ _ _ _ Hne), Hai in Hdeck.
  rewrite (enhance_with_bullets _ _ _ _ _ Hne'), Hai' in Hdeck'.
  cbn [bind] in Hdeck, Hdeck'.
  bind_inv Hdeck as slides Hslides. bind_inv Hdeck' as slides' Hslides'.
  unfold assemble_slides in Hslides, Hslides'.
  rewrite (has_points_list_of_dict d items Hpoints) in Hslides, Hslides'.
  bind_inv Hslides as first Hfirst. bind_inv Hslides' as first' Hfirst'.
  cbn [bind] in Hslides, Hslides'.
  bind_inv Hslides as rest Hrest. bind_inv Hslides' as rest' Hrest'.
  injection Hslides as <-. injection Hslides' as <-.
  rewrite Hrest in Hrest'. injection Hrest' as <-.
  apply (limit_slides_tail first first' rest slide_count); try assumption.
  unfold ai_slides in Hrest. bind_inv Hrest as pts Hpts.
  bind_inv Hrest as its Hits. bind_inv Hrest as body Hbody.
  bind_inv Hrest as closing Hclosing. injection Hrest as <-.
  now destruct body.
Qed.

End Unread.

(* ================================================================== *)
(** * The properties at concrete inputs *)

Module Runs.
Import Example.

(** The spec's scenario without AI. *)
Example geneva_without_ai :
  exists first second third,
    @enhance_content_with_ai ascii_str (collaborators None) geneva "tourists"
      "provide travel information" 5 false
    = Ok [first; second; third;
          next_steps [JStr "Summary of key points";
                      JStr "Application for tourists";
                      JStr "Contact for further information"]] /\
    title first = JStr "UCL Places To Visit" /\
    title second = JStr "Focus on Places To Visit" /\
    content second = [JStr "Places to visit in Geneva"].
Proof. do 3 eexists. repeat split. Qed.

(** The spec's scenario with an answer wrapped in prose. *)
Example geneva_with_ai :
  exists first second,
    @enhance_content_with_ai ascii_str (collaborators (Some geneva_trip))
      geneva "tourists" "provide travel information" 5 true
    = Ok [first; second; next_steps [JStr "Book now"]] /\
    title first = JStr "Geneva Trip" /\
    title second = JStr "Visit the lake" /\
    content second = [JStr "Visit the lake."; JStr "nice views"].
Proof. do 2 eexists. repeat split. Qed.

(** C1 at five bullets and five slides: seven slides are assembled and five
    are returned. *)
Lemma C1_deck_length_limited_witness :
  3 <= 5 <= 15 /\
  extract_points five_bullets <> [] /\
  exists deck,
    @enhance_content_with_ai ascii_str (collaborators None) five_bullets
      "tourists" "inform" 5 false = Ok deck /\
    Z.of_nat (List.length deck) <= 5.
Proof.
  assert (Hsc : 3 <= 5 <= 15) by lia.
  assert (Hpts : extract_points five_bullets <> []) by discriminate.
  split; [exact Hsc|]. split; [exact Hpts|].
  eexists. split; [reflexivity|].
  destruct (@C1_deck_length_limited ascii_str (collaborators None)
              five_bullets "tourists" "inform" 5 false _ Hsc Hpts eq_refl)
    as (ai_content & assembled & _ & _ & Hlen & _).
  exact Hlen.
Defined.

(** C2 refuted as stated: with an empty list under ['conclusion'] the last
    slide of the returned deck has no content. *)
Lemma C2_counterexample :
  exists first point closing,
    @enhance_content_with_ai ascii_str
      (collaborators (Some one_point_no_takeaway)) geneva "tourists"
      "provide travel information" 5 true
    = Ok [first; point; closing] /\
    content closing = [].
Proof. do 3 eexists. split; reflexivity. Qed.

(** C2, as amended, on that same run. *)
Lemma C2_slide_shapes_witness :
  3 <= 5 <= 15 /\
  extract_points geneva <> [] /\
  exists first rest,
    @enhance_content_with_ai ascii_str
      (collaborators (Some one_point_no_takeaway)) geneva "tourists"
      "provide travel information" 5 true
    = Ok (first :: rest) /\
    content first = [] /\ subtitle first <> None.
Proof.
  assert (Hsc : 3 <= 5 <= 15) by lia.
  assert (Hpts : extract_points geneva <> []) by discriminate.
  split; [exact Hsc|]. split; [exact Hpts|].
  destruct (@C2_slide_shapes ascii_str
              (collaborators (Some one_point_no_takeaway)) geneva "tourists"
              "provide travel information" 5 true _ Hsc Hpts eq_refl)
    as (ai_content & first & middle & closing & _ & Hdeck & Hc & Hs & _).
  exists first, (middle ++ [closing]).
  split; [|split; assumption].
  rewrite <- Hdeck. reflexivity.
Defined.

(** C3 refuted as stated: a second dash is removed with the first, and a
    line that is only the dash gives an empty bullet. *)
Lemma C3_counterexample :
  extract_points "--a" = ["a"] /\
  strip_marker_once (Text.strip "--a") = "-a" /\
  extract_points "-" = [EmptyString].
Proof. repeat split. Qed.

(** C4 refuted as stated: five bullets on a budget of three slides come in
    groups of one, where the ceiling of 5/3 is two. *)
Lemma C4_counterexample :
  exists slides,
    fallback_slides (H := ascii_str)
      ["lake"; "old town"; "museums"; "fondue"; "trains"] "tourists" 5
    = Ok slides /\
    map (fun s => List.length (content s)) slides = [1; 1; 1; 1; 1; 3]%nat /\
    (5 + 3 - 1) / 3 = 2.
Proof. eexists. repeat split. Qed.

(** C4, as amended, on those five bullets. *)
Lemma C4_groups_by_floor_division_witness :
  3 <= 5 <= 15 /\
  5 - 2 < Z.of_nat (List.length
                      ["lake"; "old town"; "museums"; "fondue"; "trains"]) /\
  exists groups body,
    fallback_slides (H := ascii_str)
      ["lake"; "old town"; "museums"; "fondue"; "trains"] "tourists" 5
    = Ok (body ++ [next_steps (generic_closing "tourists")]) /\
    concat groups
    = ["lake"; "old town"; "museums"; "fondue"; "trains"].
Proof.
  assert (Hsc : 3 <= 5 <= 15) by lia.
  assert (Hmore : 5 - 2 < Z.of_nat
            (List.length ["lake"; "old town"; "museums"; "fondue"; "trains"]))
    by (simpl; lia).
  split; [exact Hsc|]. split; [exact Hmore|].
  destruct (@C4_groups_by_floor_division ascii_str
              ["lake"; "old town"; "museums"; "fondue"; "trains"] "tourists" 5
              Hsc Hmore)
    as (groups & body & Hslides & Hconcat & _).
  exists groups, body. split; assumption.
Defined.

(** C5 refuted as stated: an empty list under ['conclusion'] is what the
    closing slide shows, not the generic lines. *)
Lemma C5_counterexample :
  exists d first point closing,
    @parse_ai_response (collaborators None) one_point_no_takeaway
    = Ok (JObj d) /\
    Py.lookup "conclusion" d = Some (JList []) /\
    @enhance_content_with_ai ascii_str
      (collaborators (Some one_point_no_takeaway)) geneva "tourists"
      "provide travel information" 5 true
    = Ok [first; point; closing] /\
    content closing = [] /\
    content closing <> generic_closing "tourists".
Proof. do 4 eexists. repeat split. discriminate. Qed.

(** C5, as amended, on an answer without the ['conclusion'] key. *)
Lemma C5_closing_slide_content_witness :
  3 <= 5 <= 15 /\
  extract_points geneva <> [] /\
  exists d items body first,
    @fetch_ai_content (collaborators (Some one_point)) geneva "tourists"
      "provide travel information" true = Ok (JObj d) /\
    Py.lookup "points" d = Some (JList items) /\
    for_each (point_slide "tourists") items = Ok body /\
    @enhance_content_with_ai ascii_str (collaborators (Some one_point))
      geneva "tourists" "provide travel information" 5 true
    = Ok (first :: firstn (Z.to_nat (5 - 2)) body
            ++ [next_steps (generic_closing "tourists")]).
Proof.
  assert (Hsc : 3 <= 5 <= 15) by lia.
  assert (Hpts : extract_points geneva <> []) by discriminate.
  split; [exact Hsc|]. split; [exact Hpts|].
  do 3 eexists.
  destruct (@C5_closing_slide_content ascii_str
              (collaborators (Some one_point)) geneva "tourists"
              "provide travel information" 5 true _ _ _
              Hsc Hpts eq_refl eq_refl eq_refl)
    as (first & lines & Hdeck & _ & Hgeneric).
  exists first. repeat split.
  rewrite Hdeck, Hgeneric; [reflexivity|]. discriminate.
Defined.

(** C6 refuted as stated: a brace in the prose before the object, or one in
    the prose after it, and the object is not recovered. *)
Lemma C6_counterexample :
  Json.loads "{}" = Ok (JObj []) /\
  @parse_ai_response (collaborators None) ("Note {x}: " +:+ "{}" +:+ "")
  = Ok JNull /\
  @parse_ai_response (collaborators None) ("" +:+ "{}" +:+ " (see } above)")
  = Ok JNull.
Proof. repeat split. Qed.

(** C6, as amended, on an object between two pieces of prose. *)
Lemma C6_object_recovered_witness :
  let mid := q +:+ "title" +:+ q +:+ ": " +:+ q +:+ "Geneva Trip" +:+ q in
  Text.char_in "{" "Here you go: " = false /\
  Text.char_in "}" " Enjoy!" = false /\
  Json.loads (String "{" (mid +:+ "}"))
  = Ok (JObj [("title", JStr "Geneva Trip")]) /\
  @parse_ai_response (collaborators None)
    ("Here you go: " +:+ String "{" (mid +:+ "}") +:+ " Enjoy!")
  = Ok (JObj [("title", JStr "Geneva Trip")]).
Proof.
  intros mid.
  assert (Hpre : Text.char_in "{" "Here you go: " = false) by reflexivity.
  assert (Hpost : Text.char_in "}" " Enjoy!" = false) by reflexivity.
  assert (Hobj : Json.loads (String "{" (mid +:+ "}"))
                 = Ok (JObj [("title", JStr "Geneva Trip")])) by reflexivity.
  split; [exact Hpre|]. split; [exact Hpost|]. split; [exact Hobj|].
  exact (proj2 (@C6_object_recovered (collaborators None) "Here you go: " mid
                  " Enjoy!" _ Hpre Hpost Hobj)).
Defined.

(** C8 on a text without a dash. *)
Lemma C8_no_bullets_no_deck_witness :
  Forall (fun line => Text.startswith "-" (Text.strip line) = false)
         (Text.split "010" ("Places to visit" +:+ nl +:+ "Costs")) /\
  file_path
    (@generate_presentation ascii_str (collaborators None)
       ("Places to visit" +:+ nl +:+ "Costs") "tourists" "inform" "ucl-blue"
       5 true "#000000") = None /\
  render_calls
    (@generate_presentation ascii_str (collaborators None)
       ("Places to visit" +:+ nl +:+ "Costs") "tourists" "inform" "ucl-blue"
       5 true "#000000") = [].
Proof.
  assert (Hnone : Forall
            (fun line => Text.startswith "-" (Text.strip line) = false)
            (Text.split "010" ("Places to visit" +:+ nl +:+ "Costs")))
    by (repeat constructor).
  split; [exact Hnone|].
  destruct (@C8_no_bullets_no_deck ascii_str (collaborators None)
              ("Places to visit" +:+ nl +:+ "Costs") "tourists" "inform"
              "ucl-blue" 5 true "#000000" Hnone) as [_ Hrun].
  rewrite Hrun. split; reflexivity.
Defined.

(** C10 at five bullets and five slides, AI switched off. *)
Lemma C10_grouped_fallback_full_deck_witness :
  3 <= 5 <= 15 /\
  5 - 2 < Z.of_nat (List.length (extract_points five_bullets)) /\
  exists deck,
    @enhance_content_with_ai ascii_str (collaborators None) five_bullets
      "tourists" "inform" 5 false = Ok deck /\
    Z.of_nat (List.length deck) = 5.
Proof.
  assert (Hsc : 3 <= 5 <= 15) by lia.
  assert (Hmore : 5 - 2 < Z.of_nat (List.length (extract_points five_bullets)))
    by (vm_compute; reflexivity).
  split; [exact Hsc|]. split; [exact Hmore|].
  exact (@C10_grouped_fallback_full_deck ascii_str (collaborators None)
           five_bullets "tourists" "inform" 5 false JNull _
           Hsc Hmore eq_refl eq_refl eq_refl).
Defined.

End Runs.

(* ================================================================== *)
(** * The further properties at concrete inputs *)

Module MoreRuns.
Import Example Answers.

Lemma hex_to_rgb_inverts_palette_hex_witness :
  0 <= 80 <= 255 /\ 0 <= 7 <= 255 /\ 0 <= 120 <= 255 /\
  Colour.hex_to_rgb (Colour.palette_hex (80, 7, 120)) = Ok (80, 7, 120).
Proof.
  assert (Hr : 0 <= 80 <= 255) by lia.
  assert (Hg : 0 <= 7 <= 255) by lia.
  assert (Hb : 0 <= 120 <= 255) by lia.
  split; [exact Hr|]. split; [exact Hg|]. split; [exact Hb|].
  exact (hex_to_rgb_inverts_palette_hex 80 7 120 Hr Hg Hb).
Defined.

Lemma hex_to_rgb_short_text_raises_witness :
  (String.length (Text.lstrip "#" "#fff") < 5)%nat /\
  Colour.hex_to_rgb "#fff" = Raise ValueError.
Proof.
  assert (Hlen : (String.length (Text.lstrip "#" "#fff") < 5)%nat)
    by (vm_compute; lia).
  split; [exact Hlen|].
  exact (hex_to_rgb_short_text_raises "#fff" Hlen).
Defined.

Lemma hex_to_rgb_ignores_the_rest_witness :
  (6 <= String.length (Text.lstrip "#" "#ff0000"))%nat /\
  Colour.hex_to_rgb ("#ff0000" +:+ "zz") = Colour.hex_to_rgb "#ff0000".
Proof.
  assert (Hlen : (6 <= String.length (Text.lstrip "#" "#ff0000"))%nat)
    by (vm_compute; lia).
  split; [exact Hlen|].
  exact (hex_to_rgb_ignores_the_rest "#ff0000" "zz" Hlen).
Defined.

Lemma hex_to_rgb_component_range_witness :
  Colour.hex_to_rgb "#-f00ff" = Ok (-15, 0, 255) /\
  -15 <= -15 <= 255 /\ -15 <= 0 <= 255 /\ -15 <= 255 <= 255.
Proof.
  assert (Hrun : Colour.hex_to_rgb "#-f00ff" = Ok (-15, 0, 255))
    by reflexivity.
  split; [exact Hrun|].
  exact (hex_to_rgb_component_range "#-f00ff" (-15) 0 255 Hrun).
Defined.

Lemma bullets_read_back_witness :
  Forall clean_bullet ["lake"; "old town"; EmptyString] /\
  extract_points
    (Text.join (String "010" EmptyString)
               (map (fun b => "- " +:+ b) ["lake"; "old town"; EmptyString]))
  = ["lake"; "old town"; EmptyString].
Proof.
  assert (Hclean : Forall clean_bullet ["lake"; "old town"; EmptyString])
    by (repeat constructor).
  split; [exact Hclean|].
  exact (bullets_read_back _ Hclean).
Defined.

Lemma deck_has_both_ends_witness :
  exists deck,
    @enhance_content_with_ai ascii_str (collaborators (Some geneva_trip))
      geneva "tourists" "provide travel information" 1 true = Ok deck /\
    (deck = [] <-> extract_points geneva = []).
Proof.
  eexists. split; [reflexivity|].
  exact (proj1 (@deck_has_both_ends ascii_str
                  (collaborators (Some geneva_trip)) geneva "tourists"
                  "provide travel information" 1 true _ eq_refl)).
Defined.

Lemma later_titles_are_text_witness :
  exists deck,
    @enhance_content_with_ai ascii_str (collaborators (Some geneva_trip))
      geneva "tourists" "provide travel information" 5 true = Ok deck /\
    Forall (fun s => is_text (title s)) (tl deck).
Proof.
  eexists. split; [reflexivity|].
  exact (@later_titles_are_text ascii_str (collaborators (Some geneva_trip))
           geneva "tourists" "provide travel information" 5 true _ eq_refl).
Defined.

Lemma deck_without_ai_is_text_witness :
  exists deck,
    @enhance_content_with_ai ascii_str (collaborators None) five_bullets
      "tourists" "inform" 5 false = Ok deck /\
    Forall text_slide deck.
Proof.
  eexists. split; [reflexivity|].
  exact (@deck_without_ai_is_text ascii_str (collaborators None)
           five_bullets "tourists" "inform" 5 _ eq_refl).
Defined.

Lemma small_fallback_one_slide_per_bullet_witness :
  extract_points geneva <> [] /\
  Z.of_nat (List.length (extract_points geneva)) <= 5 - 2 /\
  exists first middle,
    @enhance_content_with_ai ascii_str (collaborators None) geneva
      "tourists" "provide travel information" 5 false
    = Ok (first :: middle ++ [next_steps (generic_closing "tourists")]) /\
    map content middle
    = [[JStr "Places to visit in Geneva"]; [JStr "How much it will cost"]].
Proof.
  assert (Hne : extract_points geneva <> []) by discriminate.
  assert (Hfew : Z.of_nat (List.length (extract_points geneva)) <= 5 - 2)
    by (vm_compute; discriminate).
  split; [exact Hne|]. split; [exact Hfew|].
  eexists.
  destruct (@small_fallback_one_slide_per_bullet ascii_str
              (collaborators None) geneva "tourists"
              "provide travel information" 5 false JNull _
              Hne Hfew eq_refl eq_refl eq_refl)
    as (middle & Hdeck & Hshown & _).
  exists middle. split; [exact Hdeck | exact Hshown].
Defined.

Lemma grouped_fallback_shows_a_prefix_witness :
  3 <= 5 /\
  5 - 2 < Z.of_nat (List.length (extract_points five_bullets)) /\
  exists first middle,
    @enhance_content_with_ai ascii_str (collaborators None) five_bullets
      "tourists" "inform" 5 false
    = Ok (first :: middle ++ [next_steps (generic_closing "tourists")]) /\
    concat (map content middle)
    = [JStr "lake"; JStr "old town"; JStr "museums"].
Proof.
  assert (Hsc : 3 <= 5) by lia.
  assert (Hmore : 5 - 2 < Z.of_nat (List.length (extract_points five_bullets)))
    by (vm_compute; reflexivity).
  split; [exact Hsc|]. split; [exact Hmore|].
  eexists.
  destruct (@grouped_fallback_shows_a_prefix ascii_str (collaborators None)
              five_bullets "tourists" "inform" 5 false JNull _
              Hsc Hmore eq_refl eq_refl eq_refl)
    as (middle & Hdeck & _ & _ & Hshown & _).
  exists middle. split; [exact Hdeck | exact Hshown].
Defined.

Lemma ai_unavailable_degrades_witness :
  @ai_unavailable (collaborators (Some "Sorry, I cannot help.")) geneva
    "tourists" "inform" /\
  @enhance_content_with_ai ascii_str
    (collaborators (Some "Sorry, I cannot help.")) geneva "tourists" "inform"
    5 true
  = @enhance_content_with_ai ascii_str
      (collaborators (Some "Sorry, I cannot help.")) geneva "tourists"
      "inform" 5 false.
Proof.
  assert (Hnone : @ai_unavailable (collaborators (Some "Sorry, I cannot help."))
                    geneva "tourists" "inform")
    by (right; left; reflexivity).
  split; [exact Hnone|].
  exact (@ai_unavailable_degrades ascii_str
           (collaborators (Some "Sorry, I cannot help.")) geneva "tourists"
           "inform" 5 Hnone).
Defined.

Lemma two_slides_divide_by_zero_witness :
  extract_points geneva <> [] /\
  @enhance_content_with_ai ascii_str (collaborators None) geneva "tourists"
    "inform" 2 false = Raise ZeroDivisionError.
Proof.
  assert (Hne : extract_points geneva <> []) by discriminate.
  split; [exact Hne|].
  exact (proj1 (@two_slides_divide_by_zero ascii_str (collaborators None)
                  geneva "tourists" "inform" "ucl-blue" "#000000" Hne)).
Defined.

Lemma point_title_stops_at_full_stop_witness :
  exists s,
    point_slide "tourists"
      (JObj [("main_point", JStr "Visit the lake. It is blue.")]) = Ok s /\
    exists t rest,
      title s = JStr t /\ "Visit the lake. It is blue." = t +:+ rest /\
      Text.char_in "." t = false.
Proof.
  eexists. split; [reflexivity|].
  destruct (@point_title_stops_at_full_stop "tourists"
              [("main_point", JStr "Visit the lake. It is blue.")]
              "Visit the lake. It is blue." _ eq_refl
              ltac:(discriminate) eq_refl)
    as (t & rest & Ht & Hsplit & Hstop & _).
  exists t, rest. repeat split; assumption.
Defined.

Lemma well_formed_points_give_a_deck_witness :
  2 <= 5 /\
  extract_points geneva <> [] /\
  exists deck,
    @enhance_content_with_ai ascii_str (collaborators (Some one_point))
      geneva "tourists" "inform" 5 true = Ok deck /\
    Z.of_nat (List.length deck) = 3.
Proof.
  assert (Hsc : 2 <= 5) by lia.
  assert (Hne : extract_points geneva <> []) by discriminate.
  split; [exact Hsc|]. split; [exact Hne|].
  destruct (@well_formed_points_give_a_deck ascii_str
              (collaborators (Some one_point)) geneva "tourists" "inform" 5
              true _ _ Hsc Hne eq_refl eq_refl
              ltac:(repeat constructor))
    as (deck & Hdeck & Hlen).
  exists deck. split; [exact Hdeck | exact Hlen].
Defined.

Lemma malformed_point_aborts_witness :
  extract_points geneva <> [] /\
  Exists (fun v => ~ well_formed_point v) [JStr "just text"] /\
  exists e,
    (e = AttributeError \/ e = TypeError) /\
    @enhance_content_with_ai ascii_str (collaborators (Some bare_point))
      geneva "tourists" "inform" 5 true = Raise e.
Proof.
  assert (Hne : extract_points geneva <> []) by discriminate.
  assert (Hbad : Exists (fun v => ~ well_formed_point v) [JStr "just text"])
    by (constructor; intros []).
  split; [exact Hne|]. split; [exact Hbad|].
  destruct (@malformed_point_aborts ascii_str (collaborators (Some bare_point))
              geneva "tourists" "inform" "ucl-blue" 5 true "#000000" _ _
              Hne eq_refl eq_refl Hbad)
    as (e & He & Hraise & _).
  exists e. split; [exact He | exact Hraise].
Defined.

Lemma deck_title_witness :
  exists deck first rest,
    @enhance_content_with_ai ascii_str (collaborators (Some geneva_trip))
      geneva "tourists" "provide travel information" 5 true = Ok deck /\
    deck = first :: rest /\
    subtitle first = Some "For Tourists: Provide travel information".
Proof.
  eexists.
  destruct (@deck_title ascii_str (collaborators (Some geneva_trip)) geneva
              "tourists" "provide travel information" 5 true _ _ _ _
              eq_refl eq_refl eq_refl)
    as (first & rest & Hdeck & Hsub & _).
  exists first, rest. split; [reflexivity|]. split; [exact Hdeck | exact Hsub].
Defined.

Lemma no_file_shows_an_error_witness :
  file_path
    (@generate_presentation ascii_str (collaborators None) "no dash here"
       "tourists" "inform" "ucl-blue" 5 true "#000000") = None /\
  String.prefix "Error"
    (shown
       (@generate_presentation ascii_str (collaborators None) "no dash here"
          "tourists" "inform" "ucl-blue" 5 true "#000000")) = true.
Proof.
  assert (Hnone : file_path
            (@generate_presentation ascii_str (collaborators None)
               "no dash here" "tourists" "inform" "ucl-blue" 5 true
               "#000000") = None) by reflexivity.
  split; [exact Hnone|].
  exact (@no_file_shows_an_error ascii_str (collaborators None)
           "no dash here" "tourists" "inform" "ucl-blue" 5 true "#000000"
           Hnone).
Defined.

Lemma short_font_colour_stops_the_run_witness :
  (String.length (Text.lstrip "#" "#fff") < 5)%nat /\
  file_path
    (@generate_presentation ascii_str (with_hex_to_rgb (collaborators None))
       geneva "tourists" "inform" "ucl-blue" 5 false "#fff") = None /\
  render_calls
    (@generate_presentation ascii_str (with_hex_to_rgb (collaborators None))
       geneva "tourists" "inform" "ucl-blue" 5 false "#fff") = [].
Proof.
  assert (Hlen : (String.length (Text.lstrip "#" "#fff") < 5)%nat)
    by (vm_compute; lia).
  split; [exact Hlen|].
  destruct (@enhance_content_with_ai ascii_str (collaborators None) geneva
              "tourists" "inform" 5 false) as [slides|e] eqn:Hdeck;
    [|discriminate Hdeck].
  assert (Hne : slides <> [])
    by (intros ->; vm_compute in Hdeck; discriminate Hdeck).
  rewrite (@short_font_colour_stops_the_run ascii_str (collaborators None)
             geneva "tourists" "inform" "ucl-blue" 5 false "#fff" slides
             "<div></div>" Hne Hdeck eq_refl Hlen).
  split; reflexivity.
Defined.

Lemma palette_colour_reaches_the_renderer_witness :
  0 <= 80 <= 255 /\ 0 <= 7 <= 255 /\ 0 <= 120 <= 255 /\
  exists slides,
    render_calls
      (@generate_presentation ascii_str (with_hex_to_rgb (collaborators None))
         geneva "tourists" "inform" "ucl-purple" 5 false
         (Colour.palette_hex (80, 7, 120)))
    = [(slides, "ucl-purple", (80, 7, 120))].
Proof.
  assert (Hr : 0 <= 80 <= 255) by lia.
  assert (Hg : 0 <= 7 <= 255) by lia.
  assert (Hb : 0 <= 120 <= 255) by lia.
  split; [exact Hr|]. split; [exact Hg|]. split; [exact Hb|].
  destruct (@enhance_content_with_ai ascii_str (collaborators None) geneva
              "tourists" "inform" 5 false) as [slides|e] eqn:Hdeck;
    [|discriminate Hdeck].
  assert (Hne : slides <> [])
    by (intros ->; vm_compute in Hdeck; discriminate Hdeck).
  exists slides.
  rewrite (@palette_colour_reaches_the_renderer ascii_str (collaborators None)
             geneva "tourists" "inform" "ucl-purple" 5 false slides
             "<div></div>" "/tmp/UCL_Presentation.pptx" 80 7 120
             Hr Hg Hb Hne Hdeck eq_refl eq_refl).
  reflexivity.
Defined.

Lemma extraction_reads_the_span_only_witness :
  re_search_braces "Here: {} ok" = Some "{}" /\
  @parse_ai_response (collaborators None) "{}"
  = @parse_ai_response (collaborators None) "Here: {} ok".
Proof.
  assert (Hspan : re_search_braces "Here: {} ok" = Some "{}") by reflexivity.
  split; [exact Hspan|].
  exact (proj2 (@extraction_reads_the_span_only (collaborators None)
                  "Here: {} ok" "{}" Hspan)).
Defined.

Lemma ai_deck_ignores_the_bullets_witness :
  exists deck deck',
    @enhance_content_with_ai ascii_str (collaborators (Some one_point))
      geneva "tourists" "inform" 5 true = Ok deck /\
    @enhance_content_with_ai ascii_str (collaborators (Some one_point))
      five_bullets "tourists" "sell" 5 true = Ok deck' /\
    tl deck = tl deck'.
Proof.
  do 2 eexists. split; [reflexivity|]. split; [reflexivity|].
  exact (@ai_deck_ignores_the_bullets ascii_str
           (collaborators (Some one_point)) geneva five_bullets "tourists"
           "inform" "sell" 5 true _ _ _ _ eq_refl eq_refl eq_refl
           ltac:(discriminate) ltac:(discriminate) eq_refl eq_refl).
Defined.

End MoreRuns.
